(** * GeoBridge: the satellite-index-to-risk pipeline, embedded in Rocq

    Source files covered:
    - [src/app.py]            : [sanitize_for_json]
    - [src/sentinel_utils.py] : [process_risk_data], the [get_*_interpretation]
                                helpers and the scaling stage of [array_to_image]

    Numbers are IEEE binary64 values (numpy's [float64], Python's [float]),
    modelled by the kernel's primitive floats, so [nan], [infinity] and the
    rounding of every operation are the ones the interpreter computes. *)

From Stdlib Require Import ZArith List Bool String Lia Floats.
Import ListNotations.

Set Warnings "-inexact-float,-register-all".

Open Scope string_scope.

(* ================================================================== *)
(** ** Exceptions and results *)
(* ================================================================== *)

Module Py.

(** The exceptions the modelled code can raise. *)
Inductive exn : Type :=
| ValueError
| IndexError
| ZeroDivisionError
| TypeError.

Inductive result (A : Type) : Type :=
| Ok (a : A)
| Raise (e : exn).

Arguments Ok {A} a.
Arguments Raise {A} e.

Definition bind {A B : Type} (m : result A) (k : A -> result B) : result B :=
  match m with
  | Ok a => k a
  | Raise e => Raise e
  end.

Definition raises {A : Type} (m : result A) : bool :=
  match m with
  | Ok _ => false
  | Raise _ => true
  end.

End Py.

Import Py.

Notation "x <- m ;; k" := (bind m (fun x => k))
  (at level 61, m at next level, right associativity).

(* ================================================================== *)
(** ** binary64 helpers *)
(* ================================================================== *)

Module F64.

Open Scope float_scope.

(** [float(n)] for an integer: the nearest binary64 value. *)
Definition of_Z (z : Z) : float :=
  SF2Prim (binary_normalize prec emax z 0 false).

Definition of_nat (n : nat) : float := of_Z (Z.of_nat n).

(** [math.isnan] / [np.isnan] and [math.isinf] / [np.isinf]. *)
Definition isnan (x : float) : bool := is_nan x.
Definition isinf (x : float) : bool := is_infinity x.

(** Python's [x > c]. *)
Definition gt (x c : float) : bool := c <? x.

(** Python's [x != y] on floats. *)
Definition ne (x y : float) : bool := negb (x =? y).

(** [np.maximum] and [np.minimum]: a NaN operand wins. *)
Definition maximum (a b : float) : float :=
  if is_nan a then a else if is_nan b then b else if a <? b then b else a.

Definition minimum (a b : float) : float :=
  if is_nan a then a else if is_nan b then b else if b <? a then b else a.

(** [np.clip(x, lo, hi)] is [minimum(maximum(x, lo), hi)]. *)
Definition clip (x lo hi : float) : float := minimum (maximum x lo) hi.

Definition two52 : float := 4503599627370496.

(** [np.round] with zero decimals is [rint]: the nearest integer, ties to
    even.  Below 2^52 in magnitude, adding and subtracting 2^52 rounds to
    an integer in the current (nearest-even) mode; from 2^52 on every
    binary64 value is an integer already.  NaN and infinities come back
    unchanged. *)
Definition rint (x : float) : float :=
  if abs x <? two52 then
    let r := (abs x + two52) - two52 in
    if x <? 0 then - r else if x =? 0 then x else r
  else x.

(** Truncation toward zero of a finite value; [None] for NaN and
    infinities. *)
Definition trunc (x : float) : option Z :=
  match Prim2SF x with
  | S754_zero _ => Some 0%Z
  | S754_finite s m e =>
      let mag := match e with
                 | Z0 => Zpos m
                 | Zpos p => Z.shiftl (Zpos m) (Zpos p)
                 | Zneg p => Z.shiftr (Zpos m) (Zpos p)
                 end in
      Some (if s then Z.opp mag else mag)
  | S754_infinity _ => None
  | S754_nan => None
  end.

(** Sequential sum, starting from [0.0]. *)
Definition sum (l : list float) : float := fold_left add l 0.

End F64.

(* ================================================================== *)
(** ** Python values, as far as the sanitizer tells them apart *)
(* ================================================================== *)

Module Value.

(** A numpy scalar: [np.integer] or [np.floating]. *)
Inductive npscalar : Type :=
| NpInt (z : Z)
| NpFloat (f : float).

(** An [np.ndarray] of any rank, as the nesting [tolist] produces:
    an item for rank 0, a sequence of sub-arrays otherwise. *)
Inductive ndarray : Type :=
| NdItem (x : npscalar)
| NdAxis (l : list ndarray).

(** Python objects.  A dict is an association list in insertion order
    (the order the comprehension of [sanitize_for_json] preserves). *)
Inductive pyobj : Type :=
| PyDict (kv : list (string * pyobj))
| PyList (l : list pyobj)
| PyNp (x : npscalar)
| PyNdarray (a : ndarray)
| PyFloat (f : float)
| PyInt (z : Z)
| PyStr (s : string)
| PyBool (b : bool)
| PyNone.

(** [ndarray.tolist()]: items become Python scalars, axes become lists. *)
Fixpoint tolist (a : ndarray) : pyobj :=
  match a with
  | NdItem (NpInt z) => PyInt z
  | NdItem (NpFloat f) => PyFloat f
  | NdAxis l => PyList (map tolist l)
  end.

(** [dict[key] = value]: replaces the value of an existing key in place,
    appends a new key at the end. *)
Fixpoint dict_set {V : Type} (d : list (string * V)) (key : string) (v : V)
  : list (string * V) :=
  match d with
  | [] => [(key, v)]
  | (k, w) :: rest =>
      if String.eqb k key then (k, v) :: rest
      else (k, w) :: dict_set rest key v
  end.

Fixpoint dict_get {V : Type} (d : list (string * V)) (key : string)
  : option V :=
  match d with
  | [] => None
  | (k, w) :: rest => if String.eqb k key then Some w else dict_get rest key
  end.

End Value.

Import Value.

(* ================================================================== *)
(** ** [sanitize_for_json]  (src/app.py) *)
(* ================================================================== *)

Module Sanitizer.

(** The [isinstance] chain of the source, in its order: dict, list,
    numpy scalar, ndarray, float, anything else. *)
Fixpoint sanitize_for_json (obj : pyobj) : pyobj :=
  match obj with
  | PyDict kv =>
      PyDict (map (fun p => (fst p, sanitize_for_json (snd p))) kv)
  | PyList l => PyList (map sanitize_for_json l)
  | PyNp (NpInt z) => PyFloat (F64.of_Z z)
  | PyNp (NpFloat f) =>
      if F64.isnan f || F64.isinf f then PyFloat 0%float else PyFloat f
  | PyNdarray a => tolist a
  | PyFloat f =>
      if F64.isnan f || F64.isinf f then PyFloat 0%float else PyFloat f
  | other => other
  end.

Definition finite_scalar (x : npscalar) : bool :=
  match x with
  | NpInt _ => true
  | NpFloat f => negb (F64.isnan f || F64.isinf f)
  end.

Fixpoint finite_array (a : ndarray) : bool :=
  match a with
  | NdItem x => finite_scalar x
  | NdAxis l => forallb finite_array l
  end.

(** No NaN and no infinity anywhere in the structure. *)
Fixpoint json_safe (obj : pyobj) : bool :=
  match obj with
  | PyDict kv => forallb (fun p => json_safe (snd p)) kv
  | PyList l => forallb json_safe l
  | PyNp x => finite_scalar x
  | PyNdarray a => finite_array a
  | PyFloat f => negb (F64.isnan f || F64.isinf f)
  | _ => true
  end.

(** The structures on which the sanitizer does what its documentation
    says: every ndarray is free of NaN and infinities, and every numpy
    integer converts to a finite float (all 64-bit integers do). *)
Fixpoint regular (obj : pyobj) : bool :=
  match obj with
  | PyDict kv => forallb (fun p => regular (snd p)) kv
  | PyList l => forallb regular l
  | PyNp (NpInt z) => negb (F64.isnan (F64.of_Z z) || F64.isinf (F64.of_Z z))
  | PyNdarray a => finite_array a
  | _ => true
  end.

(** The array the sanitizer lets through: [np.array([nan])]. *)
Definition nan_array : pyobj := PyNdarray (NdAxis [NdItem (NpFloat nan)]).

End Sanitizer.

(* ================================================================== *)
(** ** Two-dimensional numpy arrays *)
(* ================================================================== *)

Module Np.

Open Scope float_scope.

(** A rank-2 array: its shape and its items in row-major (C) order. *)
Record array2 (A : Type) : Type := mk_array2 {
  nrows : nat;
  ncols : nat;
  data : list A
}.

Arguments mk_array2 {A} nrows ncols data.
Arguments nrows {A} a.
Arguments ncols {A} a.
Arguments data {A} a.

Definition grid : Type := array2 float.

Definition shape {A : Type} (a : array2 A) : nat * nat := (nrows a, ncols a).

(** [a.size] *)
Definition size {A : Type} (a : array2 A) : nat := (nrows a * ncols a)%nat.

(** The buffer holds exactly [size] items. *)
Definition well_formed {A : Type} (a : array2 A) : Prop :=
  List.length (data a) = size a.

Definition well_formedb {A : Type} (a : array2 A) : bool :=
  Nat.eqb (List.length (data a)) (size a).

Definition shape_eqb (s t : nat * nat) : bool :=
  Nat.eqb (fst s) (fst t) && Nat.eqb (snd s) (snd t).

(** [a[i, j]] *)
Definition item (a : grid) (i j : nat) : float :=
  nth (i * ncols a + j) (data a) nan.

Definition map2d {A B : Type} (f : A -> B) (a : array2 A) : array2 B :=
  mk_array2 (nrows a) (ncols a) (map f (data a)).

(** [np.full(shape, v)] *)
Definition full (s : nat * nat) (v : float) : grid :=
  mk_array2 (fst s) (snd s) (repeat v (fst s * snd s)).

(** [np.zeros(shape)] *)
Definition zeros (s : nat * nat) : grid := full s 0.

(** [np.full_like(a, v)] *)
Definition full_like (a : grid) (v : float) : grid := full (shape a) v.

(** A rank-3 array [height, width, channels], row-major. *)
Record array3 : Type := mk_array3 {
  dim0 : nat;
  dim1 : nat;
  dim2 : nat;
  data3 : list float
}.

(** [a[:, :, 0]]: channel 0 of every pixel; [IndexError] when the array
    has no channel. *)
Definition channel0 (a : array3) : result grid :=
  match dim2 a with
  | O => Raise IndexError
  | S _ =>
      Ok (mk_array2 (dim0 a) (dim1 a)
            (map (fun k => nth (k * dim2 a) (data3 a) nan)
                 (seq 0 (dim0 a * dim1 a))))
  end.

(** [np.max] and [np.min] of all items (a NaN item makes the result NaN);
    [ValueError] on an array without items. *)
Definition max (a : grid) : result float :=
  match data a with
  | [] => Raise ValueError
  | x :: rest => Ok (fold_left F64.maximum rest x)
  end.

Definition min (a : grid) : result float :=
  match data a with
  | [] => Raise ValueError
  | x :: rest => Ok (fold_left F64.minimum rest x)
  end.

(** [np.nanmean] over a list of items: NaN items count as absent; the sum
    of the remaining ones over their number.  With no item left the
    quotient is [0.0 / 0], that is NaN (numpy warns and returns it).
    The sum is taken left to right; numpy adds pairwise, which gives the
    same value whenever the additions are exact and for short inputs. *)
Definition nanmean_list (l : list float) : float :=
  let kept := filter (fun x => negb (F64.isnan x)) l in
  F64.sum kept / F64.of_nat (List.length kept).

Definition nanmean (a : grid) : float := nanmean_list (data a).

(** [np.nanmin] / [np.nanmax] raise [ValueError] on an empty array and only
    warn on an all-NaN one; the source calls them inside its trace output,
    where only the raising matters. *)
Definition nan_statistics (a : grid) : result unit :=
  if Nat.eqb (size a) 0 then Raise ValueError else Ok tt.

End Np.

Import Np.

(* ================================================================== *)
(** ** [process_risk_data]  (src/sentinel_utils.py) *)
(* ================================================================== *)

Module Risk.

Open Scope float_scope.

(** The six risk factors, in the order the source processes them. *)
Inductive factor : Type :=
| vegetation_health
| water_stress
| urban_areas
| burn_areas
| roof_risk
| drainage_risk.

(** Key of the factor in [risk_layers], [index_values] and [risk_values]. *)
Definition factor_name (f : factor) : string :=
  match f with
  | vegetation_health => "vegetation_health"
  | water_stress => "water_stress"
  | urban_areas => "urban_areas"
  | burn_areas => "burn_areas"
  | roof_risk => "roof_risk"
  | drainage_risk => "drainage_risk"
  end.

(** Key of the mean raw value inside the factor's summary. *)
Definition raw_key (f : factor) : string :=
  match f with
  | vegetation_health => "raw_ndvi"
  | water_stress => "raw_ndmi"
  | urban_areas => "raw_ndbi"
  | burn_areas => "raw_nbr"
  | roof_risk => "roof_analysis"
  | drainage_risk => "drainage_analysis"
  end.

Definition get_ndvi_interpretation (ndvi_value : float) : string :=
  if F64.gt ndvi_value 0.6 then
    "Dense vegetation - lower fire risk, potential storm damage risk"
  else if F64.gt ndvi_value 0.3 then
    "Moderate vegetation - balanced risk profile"
  else if F64.gt ndvi_value 0.1 then
    "Sparse vegetation - higher fire risk"
  else "Very sparse/no vegetation - high fire risk, erosion risk".

Definition get_ndmi_interpretation (ndmi_value : float) : string :=
  if F64.gt ndmi_value 0.3 then
    "High moisture content - lower fire risk"
  else if F64.gt ndmi_value 0.0 then
    "Moderate moisture content - medium fire risk"
  else if F64.gt ndmi_value (-0.2) then
    "Low moisture content - elevated fire risk"
  else "Very low moisture - high fire risk".

Definition get_ndbi_interpretation (ndbi_value : float) : string :=
  if F64.gt ndbi_value 0.2 then
    "Dense built-up area - high property density"
  else if F64.gt ndbi_value 0.0 then
    "Moderate development - medium property density"
  else if F64.gt ndbi_value (-0.2) then
    "Light development - low property density"
  else "Natural area - minimal built infrastructure".

Definition get_nbr_interpretation (nbr_value : float) : string :=
  if F64.gt nbr_value 0.4 then
    "Healthy vegetation - low fire risk"
  else if F64.gt nbr_value 0.2 then
    "Moderate vegetation health - medium fire risk"
  else if F64.gt nbr_value 0.0 then
    "Stressed vegetation - elevated fire risk"
  else "Severely stressed/burned vegetation - high fire risk".

Definition get_drainage_interpretation (drainage_value : float) : string :=
  if F64.gt drainage_value 0.2 then
    "Good drainage - vegetation thriving with appropriate moisture"
  else if F64.gt drainage_value 0.0 then
    "Moderate drainage - some areas may have issues"
  else if F64.gt drainage_value (-0.2) then
    "Poor drainage - vegetation stressed despite moisture"
  else "Very poor drainage - high flood/waterlogging risk".

Definition interpretation (f : factor) (mean : float) : string :=
  match f with
  | vegetation_health => get_ndvi_interpretation mean
  | water_stress => get_ndmi_interpretation mean
  | urban_areas => get_ndbi_interpretation mean
  | burn_areas => get_nbr_interpretation mean
  | roof_risk => "Custom roof material analysis for hail/storm vulnerability"
  | drainage_risk => get_drainage_interpretation mean
  end.

(** *** The per-pixel risk rules: the nested [np.where] of each converter *)

Definition vegetation_rule (ndvi : float) : Z :=
  if F64.gt ndvi 0.6 then 3 else if F64.gt ndvi 0.2 then 5 else 7.

Definition water_rule (ndmi : float) : Z :=
  if F64.gt ndmi 0.3 then 3 else if F64.gt ndmi (-0.1) then 5 else 8.

Definition urban_rule (ndbi : float) : Z :=
  if F64.gt ndbi 0.1 then 7 else if F64.gt ndbi (-0.2) then 4 else 2.

Definition burn_rule (nbr : float) : Z :=
  if F64.gt nbr 0.3 then 2 else if F64.gt nbr 0.1 then 5 else 8.

Definition drainage_rule (drainage_value : float) : Z :=
  if F64.gt drainage_value 0.2 then 3
  else if F64.gt drainage_value (-0.1) then 6 else 9.

(** The tier rule of a threshold converter.  The roof converter has no
    per-pixel rule (it normalises over the whole grid, see [roof_rule]);
    its entry here is never used. *)
Definition threshold_rule (f : factor) : float -> Z :=
  match f with
  | vegetation_health => vegetation_rule
  | water_stress => water_rule
  | urban_areas => urban_rule
  | burn_areas => burn_rule
  | drainage_risk => drainage_rule
  | roof_risk => fun _ => 5%Z
  end.

(** The tier of the last [else] of each threshold converter. *)
Definition else_tier (f : factor) : Z :=
  match f with
  | vegetation_health => 7
  | water_stress => 8
  | urban_areas => 2
  | burn_areas => 8
  | drainage_risk => 9
  | roof_risk => 5
  end.

(** The tier set of each threshold converter. *)
Definition tiers (f : factor) : list Z :=
  match f with
  | vegetation_health => [3; 5; 7]
  | water_stress => [3; 5; 8]
  | urban_areas => [2; 4; 7]
  | burn_areas => [2; 5; 8]
  | drainage_risk => [3; 6; 9]
  | roof_risk => [2; 3; 4; 5; 6; 7; 8; 9; 10]
  end%Z.

Definition is_threshold (f : factor) : bool :=
  match f with
  | roof_risk => false
  | _ => true
  end.

(** The roof converter: min-max normalisation, then [round(norm*8 + 2)];
    the constant 5 when the maximum does not exceed the minimum. *)
Definition roof_rule (roof_value : grid) : result grid :=
  mx <- Np.max roof_value ;;
  mn <- Np.min roof_value ;;
  if F64.gt mx mn then
    Ok (map2d (fun v => F64.rint (((v - mn) / (mx - mn)) * 8 + 2)) roof_value)
  else Ok (full_like roof_value 5).

(** A risk layer: the threshold converters produce integer arrays
    ([np.where] over integer constants), the roof converter a float one. *)
Inductive layer : Type :=
| IntLayer (a : array2 Z)
| FloatLayer (a : grid).

(** [layer_data.astype(np.float64)] *)
Definition astype_float64 (l : layer) : grid :=
  match l with
  | IntLayer a => map2d F64.of_Z a
  | FloatLayer a => a
  end.

Definition layer_shape (l : layer) : nat * nat := shape (astype_float64 l).

(** The local variables of [process_risk_data]. *)
Record state : Type := mk_state {
  risk_layers : list (string * layer);
  index_values : list (string * pyobj);
  reference_shape : option (nat * nat)
}.

Definition initial : state := mk_state [] [] None.

(** What the function returns: the pair of the no-data exit, or the
    triple of the normal exit. *)
Inductive returned : Type :=
| Ret2 (composite_risk : grid) (index_values : pyobj)
| Ret3 (composite_risk : grid) (index_values : pyobj) (risk_values : pyobj).

Definition is_triple (r : result returned) : bool :=
  match r with
  | Ok (Ret3 _ _ _) => true
  | _ => false
  end.

(** A factor argument: [None], or the list whose first item is the
    [height, width, channels] array. *)
Definition raw_data : Type := option (list array3).

(** [data[0]] *)
Definition first_item (d : list array3) : result array3 :=
  match d with
  | [] => Raise IndexError
  | a :: _ => Ok a
  end.

(** [data[0][:, :, 0].astype(np.float64)] *)
Definition raw_grid (d : list array3) : result grid :=
  a <- first_item d ;; channel0 a.

(** The entry of [index_values] for a factor. *)
Definition summary (f : factor) (g : grid) : pyobj :=
  PyDict [(raw_key f, PyFloat (nanmean g));
          ("interpretation", PyStr (interpretation f (nanmean g)))].

Definition store (f : factor) (g : grid) (l : layer)
    (ref : option (nat * nat)) (st : state) : state :=
  mk_state (dict_set (risk_layers st) (factor_name f) l)
           (dict_set (index_values st) (factor_name f) (summary f g))
           ref.

(** The trace output takes [np.min] / [np.max] of the risk layer, which
    raise on an array without items. *)
Definition layer_statistics (l : layer) : result unit :=
  nan_statistics (astype_float64 l).

(** [(reference_shape[0] / a.shape[0], reference_shape[1] / a.shape[1])]:
    true division of Python integers. *)
Definition zoom_factor (ref : nat * nat) (g : grid) : result (float * float) :=
  if Nat.eqb (nrows g) 0 || Nat.eqb (ncols g) 0 then Raise ZeroDivisionError
  else Ok (F64.of_nat (fst ref) / F64.of_nat (nrows g),
           F64.of_nat (snd ref) / F64.of_nat (ncols g)).

Section Pipeline.

(** [scipy.ndimage.zoom(a, zoom_factor, order=1)], an external library
    function. *)
Variable zoom : grid -> float * float -> grid.

(** The alignment block shared by every converter but the first:
    resample when a reference shape is set and differs, adopt the own
    shape when none is set. *)
Definition align (ref : option (nat * nat)) (g : grid)
  : result (grid * option (nat * nat)) :=
  match ref with
  | Some r =>
      if shape_eqb (shape g) r then Ok (g, ref)
      else z <- zoom_factor r g ;; Ok (zoom g z, ref)
  | None => Ok (g, Some (shape g))
  end.

(** The risk layer of a factor from its (aligned) grid. *)
Definition risk_of (f : factor) (g : grid) : result layer :=
  match f with
  | roof_risk => r <- roof_rule g ;; Ok (FloatLayer r)
  | _ => Ok (IntLayer (map2d (threshold_rule f) g))
  end.

(** The vegetation block: it runs first and sets the reference shape
    without looking at it. *)
Definition process_vegetation (d : list array3) (st : state) : result state :=
  ndvi <- raw_grid d ;;
  let ref := Some (shape ndvi) in
  _ <- nan_statistics ndvi ;;
  vegetation_risk <- risk_of vegetation_health ndvi ;;
  _ <- layer_statistics vegetation_risk ;;
  Ok (store vegetation_health ndvi vegetation_risk ref st).

(** The block of each of the five other factors. *)
Definition process_aligned (f : factor) (d : list array3) (st : state)
  : result state :=
  g <- raw_grid d ;;
  _ <- nan_statistics g ;;
  ar <- align (reference_shape st) g ;;
  risk <- risk_of f (fst ar) ;;
  _ <- layer_statistics risk ;;
  Ok (store f (fst ar) risk (snd ar) st).

(** [if data is not None: ...] *)
Definition process_factor (f : factor) (d : raw_data) (st : state)
  : result state :=
  match d with
  | None => Ok st
  | Some raw =>
      match f with
      | vegetation_health => process_vegetation raw st
      | _ => process_aligned f raw st
      end
  end.

Fixpoint run_steps (steps : list (factor * raw_data)) (st : state)
  : result state :=
  match steps with
  | [] => Ok st
  | (f, d) :: rest => st' <- process_factor f d st ;; run_steps rest st'
  end.

(** The six blocks in source order. *)
Definition all_steps (veg water urban burn roof drainage : raw_data)
  : list (factor * raw_data) :=
  [(vegetation_health, veg); (water_stress, water); (urban_areas, urban);
   (burn_areas, burn); (roof_risk, roof); (drainage_risk, drainage)].

Definition factor_phase (veg water urban burn roof drainage : raw_data)
  : result state :=
  run_steps (all_steps veg water urban burn roof drainage) initial.

End Pipeline.

(** *** The composite *)

(** Item [(i, j)] of [l] broadcast to a larger shape: an axis of length 1
    is repeated. *)
Definition broadcast_item (l : grid) (i j : nat) : float :=
  nth ((if Nat.eqb (nrows l) 1 then 0 else i) * ncols l
       + (if Nat.eqb (ncols l) 1 then 0 else j))%nat (data l) nan.

Definition broadcastable (l total : grid) : bool :=
  (Nat.eqb (nrows l) (nrows total) || Nat.eqb (nrows l) 1)
  && (Nat.eqb (ncols l) (ncols total) || Nat.eqb (ncols l) 1).

(** [total += l]: in place, [l] broadcast to the shape of [total];
    [ValueError] when the shapes are not compatible. *)
Definition iadd (total l : grid) : result grid :=
  if broadcastable l total then
    Ok (mk_array2 (nrows total) (ncols total)
          (map (fun k => nth k (data total) nan
                         + broadcast_item l (k / ncols total) (k mod ncols total))
               (seq 0 (size total))))
  else Raise ValueError.

(** The loop over [risk_layers.items()]. *)
Fixpoint accumulate (layers : list (string * layer)) (total_risk : grid)
    (factor_count : nat) : result (grid * nat) :=
  match layers with
  | [] => Ok (total_risk, factor_count)
  | (_, layer_data) :: rest =>
      _ <- layer_statistics layer_data ;;
      t <- iadd total_risk (astype_float64 layer_data) ;;
      accumulate rest t (S factor_count)
  end.

(** The second loop, filling [risk_values]. *)
Definition risk_values_of (layers : list (string * layer))
  : list (string * pyobj) :=
  fold_left
    (fun acc p => dict_set acc (fst p) (PyFloat (nanmean (astype_float64 (snd p)))))
    layers [].

Definition no_data_message : pyobj :=
  PyDict [("message", PyStr "No satellite data available")].

Definition composite_phase (st : state) : result returned :=
  match risk_layers st with
  | [] => Ok (Ret2 (full (256, 256)%nat 5) no_data_message)
  | _ :: _ =>
      match reference_shape st with
      | None => Raise TypeError
      | Some ref =>
          tc <- accumulate (risk_layers st) (zeros ref) 0 ;;
          let total_risk := fst tc in
          let factor_count := snd tc in
          let averaged :=
            if Nat.ltb 0 factor_count
            then map2d (fun x => x / F64.of_nat factor_count) total_risk
            else full ref 5 in
          let composite_risk := map2d (fun x => F64.clip x 1 10) averaged in
          _ <- nan_statistics composite_risk ;;
          Ok (Ret3 composite_risk
                (PyDict (dict_set (index_values st) "composite_risk"
                           (PyFloat (nanmean composite_risk))))
                (PyDict (risk_values_of (risk_layers st))))
      end
  end.

Definition process_risk_data (zoom : grid -> float * float -> grid)
    (veg_health_data water_stress_data urban_detection_data
     burn_detection_data roof_detection_data drainage_detection_data : raw_data)
  : result returned :=
  st <- factor_phase zoom veg_health_data water_stress_data
          urban_detection_data burn_detection_data roof_detection_data
          drainage_detection_data ;;
  composite_phase st.

(** *** The composite as the specification words it *)

(** [mean(xs)]: the sum over the number of values. *)
Definition spec_mean (xs : list float) : float :=
  F64.sum xs / F64.of_nat (List.length xs).

(** [clamp(v, lo, hi)] *)
Definition spec_clamp (v lo hi : float) : float :=
  if F64.isnan v then v else if v <? lo then lo else if hi <? v then hi else v.

End Risk.

(* ================================================================== *)
(** ** [array_to_image]: validation and scaling  (src/sentinel_utils.py) *)
(* ================================================================== *)

Module Image.

Open Scope float_scope.

(** [np.nan_to_num(x, nan=0, posinf=255, neginf=0)] *)
Definition nan_to_num (x : float) : float :=
  if F64.isnan x then 0
  else if x =? infinity then 255
  else if x =? neg_infinity then 0
  else x.

(** [x.astype(np.uint8)]: the fraction is dropped and the integer taken
    modulo 256.  For NaN and infinities numpy leaves the result to the
    platform's C conversion; 0 stands for it here. *)
Definition astype_uint8 (x : float) : Z :=
  match F64.trunc x with
  | Some z => (z mod 256)%Z
  | None => 0%Z
  end.

(** [np.nanmin] / [np.nanmax]: NaN items are skipped; NaN when all are. *)
Definition nanmin (a : grid) : result float :=
  match data a with
  | [] => Raise ValueError
  | _ :: _ =>
      match filter (fun x => negb (F64.isnan x)) (data a) with
      | [] => Ok nan
      | x :: rest => Ok (fold_left F64.minimum rest x)
      end
  end.

Definition nanmax (a : grid) : result float :=
  match data a with
  | [] => Raise ValueError
  | _ :: _ =>
      match filter (fun x => negb (F64.isnan x)) (data a) with
      | [] => Ok nan
      | x :: rest => Ok (fold_left F64.maximum rest x)
      end
  end.

(** [min_val if min_val is not None else np.nanmin(img_array)] *)
Definition effective (given : option float) (computed : result float)
  : result float :=
  match given with
  | Some v => Ok v
  | None => computed
  end.

(** One pixel of the normalising branch. *)
Definition scale_pixel (min_val max_val x : float) : Z :=
  let clipped := F64.clip x min_val max_val in
  let scaled :=
    if F64.ne max_val min_val
    then (clipped - min_val) / (max_val - min_val)
    else 0 in
  astype_uint8 (scaled * 255).

(** [array_to_image] up to the 8-bit intensity grid [img_array] that the
    colour schemes read.  The argument is a rank-2 array by its type, so
    the rank test of the source always passes; the trace output takes
    [np.min(array)], which raises on an array without items. *)
Definition array_to_image_intensity (array : grid) (normalize : bool)
    (min_val max_val : option float) : result (array2 Z) :=
  let img_array := map2d nan_to_num array in
  _ <- nan_statistics array ;;
  if normalize then
    lo <- effective min_val (nanmin img_array) ;;
    hi <- effective max_val (nanmax img_array) ;;
    Ok (map2d (scale_pixel lo hi) img_array)
  else
    Ok (map2d (fun x => astype_uint8 (F64.clip x 0 255)) img_array).

End Image.

(* ================================================================== *)
(** ** Observations on a run, and concrete inputs *)
(* ================================================================== *)

Module Run.

Import Risk.
Open Scope float_scope.

(** [data is not None] *)
Definition present (d : raw_data) : bool :=
  match d with
  | Some _ => true
  | None => false
  end.

Definition any_present (steps : list (factor * raw_data)) : bool :=
  existsb (fun p => present (snd p)) steps.

Definition is_vegetation (f : factor) : bool :=
  match f with
  | vegetation_health => true
  | _ => false
  end.

(** No vegetation block among the steps. *)
Definition aligned_only (steps : list (factor * raw_data)) : bool :=
  forallb (fun p => negb (is_vegetation (fst p))) steps.

(** The shape of the raw grid of the first present factor. *)
Fixpoint first_shape (steps : list (factor * raw_data)) : option (nat * nat) :=
  match steps with
  | [] => None
  | (_, None) :: rest => first_shape rest
  | (_, Some raw) :: _ =>
      match raw_grid raw with
      | Ok g => Some (shape g)
      | Raise _ => None
      end
  end.

(** The layer a converter produces when every pixel takes its fallback:
    the last tier of a threshold converter, 5.0 for the roof. *)
Definition constant_layer (f : factor) (s : nat * nat) : layer :=
  if is_threshold f
  then IntLayer (mk_array2 (fst s) (snd s) (repeat (else_tier f) (fst s * snd s)))
  else FloatLayer (full s 5).

Definition all_nan (g : grid) : bool := forallb F64.isnan (data g).

(** The mean raw value recorded in the summary of a factor. *)
Definition recorded_mean (f : factor) (iv : list (string * pyobj)) : option float :=
  match dict_get iv (factor_name f) with
  | Some (PyDict s) =>
      match dict_get s (raw_key f) with
      | Some (PyFloat m) => Some m
      | _ => None
      end
  | _ => None
  end.

Definition layer_has_nan (l : layer) : bool :=
  existsb F64.isnan (data (astype_float64 l)).

Definition layer_in_tiers (f : factor) (l : layer) : bool :=
  match l with
  | IntLayer a => forallb (fun z => existsb (Z.eqb z) (tiers f)) (data a)
  | FloatLayer a =>
      forallb (fun x => existsb (fun z => (x =? F64.of_Z z)) (tiers f)) (data a)
  end.

(** Every layer has the shape [s] and a buffer of that size. *)
Definition layers_shaped (s : nat * nat) (layers : list (string * layer)) : Prop :=
  Forall (fun p => layer_shape (snd p) = s /\ well_formed (astype_float64 (snd p)))
         layers.

(** Every layer has at least one item. *)
Definition layers_nonempty (layers : list (string * layer)) : Prop :=
  Forall (fun p => size (astype_float64 (snd p)) <> 0%nat) layers.

(** The input of a factor is absent, or holds a grid of the shape [s]. *)
Definition input_shaped (s : nat * nat) (d : raw_data) : bool :=
  match d with
  | None => true
  | Some raw =>
      match raw_grid raw with
      | Ok g => shape_eqb (shape g) s
      | Raise _ => false
      end
  end.

(** What the blocks keep true when nothing is resampled: the layers have
    the shape [s], and the reference shape is [s] as soon as it is set. *)
Definition unresampled (s : nat * nat) (st : state) : Prop :=
  layers_shaped s (risk_layers st)
  /\ (reference_shape st = None \/ reference_shape st = Some s)
  /\ (risk_layers st <> [] -> reference_shape st = Some s).

(** The values of the layers at the flat (row-major) index [k]. *)
Definition pixel_values (k : nat) (layers : list (string * layer)) : list float :=
  map (fun p => nth k (data (astype_float64 (snd p))) nan) layers.

(** *** A resampler to run the pipeline with

    Nearest-neighbour resampling with the output shape rule of
    [scipy.ndimage.zoom] ([round(length * factor)] per axis).  It stands
    in for the library function where the pipeline is evaluated on
    concrete inputs. *)
Definition zoomed_length (n : nat) (z : float) : nat :=
  match F64.trunc (F64.rint (F64.of_nat n * z)) with
  | Some v => Z.to_nat v
  | None => 0%nat
  end.

Definition nearest_zoom (g : grid) (z : float * float) : grid :=
  let h := zoomed_length (nrows g) (fst z) in
  let w := zoomed_length (ncols g) (snd z) in
  mk_array2 h w
    (map (fun k => item g ((k / w) * nrows g / h) ((k mod w) * ncols g / w))
         (seq 0 (h * w))).

(** *** Concrete inputs *)

(** A factor argument holding one single-channel array. *)
Definition single_band (h w : nat) (values : list float) : raw_data :=
  Some [mk_array3 h w 1 values].

(** A 1x1 grid whose only pixel is NaN. *)
Definition nan_pixel : raw_data := single_band 1 1 [nan].

(** A 1x2 roof grid holding one finite and one infinite value. *)
Definition roof_with_infinity : raw_data := single_band 1 2 [1; infinity].

Definition ndvi_1x2 : raw_data := single_band 1 2 [0.7; 0.1].
Definition ndmi_1x2 : raw_data := single_band 1 2 [0.5; -0.5].
Definition ndbi_2x2 : raw_data := single_band 2 2 [0.3; 0.0; -0.3; 0.3].

End Run.

(* ================================================================== *)
(** ** Further observations on the inputs and outputs of a run *)
(* ================================================================== *)

Module Observe.

Import Risk Run.
Open Scope float_scope.

(** The keys of a dict, in insertion order. *)
Definition keys {V : Type} (d : list (string * V)) : list string := map fst d.

(** The names of the factors whose input is present, in processing order. *)
Definition present_names (steps : list (factor * raw_data)) : list string :=
  map (fun p => factor_name (fst p)) (filter (fun p => present (snd p)) steps).

(** A present input the blocks cannot read a pixel from: no array in the
    list, no channel in the array, or a grid without items. *)
Definition unusable (d : raw_data) : bool :=
  match d with
  | None => false
  | Some raw =>
      match raw_grid raw with
      | Ok g => Nat.eqb (size g) 0
      | Raise _ => true
      end
  end.

(** Two arrays of the same height and width, each with at least one
    channel, that agree on channel 0 of every pixel; the other channels
    (the validity mask) are free. *)
Definition same_channel0 (a b : array3) : Prop :=
  dim0 a = dim0 b
  /\ dim1 a = dim1 b
  /\ dim2 a <> 0%nat
  /\ dim2 b <> 0%nat
  /\ forall k, (k < dim0 a * dim1 a)%nat ->
       nth (k * dim2 a) (data3 a) nan = nth (k * dim2 b) (data3 b) nan.

(** Two factor arguments that are both absent, or whose first arrays agree
    on channel 0. *)
Definition same_input (d e : raw_data) : Prop :=
  match d, e with
  | None, None => True
  | Some (a :: _), Some (b :: _) => same_channel0 a b
  | _, _ => False
  end.

(** A pixel of the composite is in range: NaN, or between 1 and 10. *)
Definition in_risk_range (x : float) : bool :=
  F64.isnan x || ((1 <=? x) && (x <=? 10)).

Definition composite_of (r : returned) : grid :=
  match r with
  | Ret2 c _ => c
  | Ret3 c _ _ => c
  end.

(** The dicts a run returns: the index values, and the risk values when
    there are any. *)
Definition dicts_of (r : returned) : list pyobj :=
  match r with
  | Ret2 _ iv => [iv]
  | Ret3 _ iv rv => [iv; rv]
  end.

(** Every value of the dict is one the sanitizer cleans completely. *)
Definition all_regular (d : list (string * pyobj)) : Prop :=
  Forall (fun p => Sanitizer.regular (snd p) = true) d.

(** A two-channel input: index value and validity mask per pixel. *)
Definition ndvi_masked (mask : float) : raw_data :=
  Some [mk_array3 1 2 2 [0.7; mask; 0.1; mask]].

End Observe.

(* ================================================================== *)
(** ** [array_to_image] and [risk_score_to_image]: the colour stage *)
(* ================================================================== *)

Module Colour.

Import Image.

(** [uint8] arithmetic wraps around modulo 256. *)
Definition u8 (z : Z) : Z := (z mod 256)%Z.

(** [np.clip(a, 0, 255)] on [uint8] values. *)
Definition clip_u8 (z : Z) : Z := Z.min (Z.max z 0) 255.

(** One pixel of [colormap]: red, green, blue. *)
Definition rgb : Type := (Z * Z * Z)%type.

Definition white_fade (v : Z) : Z := clip_u8 (u8 (255 - u8 (v * 3))).

(** The [heat] branch: three masked assignments on a zeroed colormap, in
    the order cold, medium, hot. *)
Definition heat_pixel (v : Z) : rgb :=
  let c0 : rgb := (0, 0, 0)%Z in
  let c1 : rgb := if (v <? 85)%Z then (0, u8 (v * 3), 255)%Z else c0 in
  let c2 : rgb :=
    if ((85 <=? v) && (v <? 170))%Z
    then (u8 (u8 (v - 85) * 3), 0, u8 (255 - u8 (u8 (v - 85) * 3)))%Z
    else c1 in
  if (170 <=? v)%Z then (255, u8 (u8 (v - 170) * 3), 0)%Z else c2.

(** The [blue_to_brown] branch: masked assignments in the order wet,
    medium, dry. *)
Definition blue_to_brown_pixel (v : Z) : rgb :=
  let c0 : rgb := (0, 0, 0)%Z in
  let c1 : rgb := if (170 <? v)%Z then (0, v / 2, v)%Z else c0 in
  let c2 : rgb :=
    if ((85 <? v) && (v <=? 170))%Z
    then (u8 (100 - v / 2), u8 (100 + v / 3), v)%Z
    else c1 in
  if (v <=? 85)%Z then (u8 (140 - v / 2), u8 (80 - v / 4), v / 3)%Z else c2.

(** The [purple] branch multiplies by a float, clips in float64 and casts
    the result on assignment to the [uint8] colormap. *)
Definition purple_pixel (v : Z) : rgb :=
  (astype_uint8 (F64.clip (F64.of_Z v * 0.7) 0 255),
   0%Z,
   astype_uint8 (F64.clip (F64.of_Z v * 1.3) 0 255)).

(** The colour of an 8-bit intensity [v] under a scheme name; a name that
    is none of the eight known ones falls into the last [else]. *)
Definition scheme_pixel (color_scheme : string) (v : Z) : rgb :=
  if String.eqb color_scheme "gray" then (v, v, v)
  else if String.eqb color_scheme "red" then (v, 0, 0)%Z
  else if String.eqb color_scheme "green" then (0, v, 0)%Z
  else if String.eqb color_scheme "blue" then (u8 (255 - v), u8 (255 - v), v)
  else if String.eqb color_scheme "water_blue"
       then (white_fade v, white_fade v, clip_u8 (u8 (v * 2)))
  else if String.eqb color_scheme "heat" then heat_pixel v
  else if String.eqb color_scheme "purple" then purple_pixel v
  else if String.eqb color_scheme "blue_to_brown" then blue_to_brown_pixel v
  else (v, v, v).

(** [array_to_image] up to [colormap], the RGB raster handed to the PNG
    encoder. *)
Definition array_to_image_colormap (array : grid) (color_scheme : string)
    (normalize : bool) (min_val max_val : option float) : result (array2 rgb) :=
  img_array <- array_to_image_intensity array normalize min_val max_val ;;
  Ok (map2d (scheme_pixel color_scheme) img_array).

(** [np.nan_to_num(x, nan=scale_max/2, posinf=scale_max, neginf=0)] *)
Definition risk_nan_to_num (scale_max x : float) : float :=
  if F64.isnan x then (scale_max / 2)%float
  else if (x =? infinity)%float then scale_max
  else if (x =? neg_infinity)%float then 0%float
  else x.

(** [risk_255] of one pixel. *)
Definition risk_255 (scale_max x : float) : Z :=
  astype_uint8
    (F64.clip (risk_nan_to_num scale_max x / scale_max) 0 1 * 255)%float.

(** One pixel of the red-green gradient. *)
Definition risk_pixel (scale_max x : float) : rgb :=
  (risk_255 scale_max x, u8 (255 - risk_255 scale_max x), 0%Z).

(** [risk_score_to_image] up to [colormap]; the trace output takes
    [np.min(risk_score)], which raises on an array without items. *)
Definition risk_score_to_image_colormap (risk_score : grid) (scale_max : float)
  : result (array2 rgb) :=
  _ <- nan_statistics risk_score ;;
  Ok (map2d (risk_pixel scale_max) risk_score).

(** [visualization_config] of [analyze] and [analyze_trends]: the colour
    scheme and the value range of each factor image. *)
Definition visualization_config (factor_name : string)
  : option (string * option (float * float)) :=
  if String.eqb factor_name "vegetation_health" then Some ("green", Some (-1, 1)%float)
  else if String.eqb factor_name "water_stress" then Some ("blue", Some (-1, 1)%float)
  else if String.eqb factor_name "urban_detection" then Some ("purple", Some (-1, 1)%float)
  else if String.eqb factor_name "burn_detection" then Some ("red", Some (-1, 1)%float)
  else if String.eqb factor_name "roof_detection" then Some ("heat", None)
  else if String.eqb factor_name "drainage_detection"
       then Some ("blue_to_brown", Some (-1, 1)%float)
  else None.

(** The image of one factor as the two routes build it: normalised over
    the configured range, or over the data's own range when none is
    configured. *)
Definition factor_image (factor_name : string) (factor_img : grid)
  : option (result (array2 rgb)) :=
  match visualization_config factor_name with
  | None => None
  | Some (color, Some (min_val, max_val)) =>
      Some (array_to_image_colormap factor_img color true (Some min_val) (Some max_val))
  | Some (color, None) =>
      Some (array_to_image_colormap factor_img color true None None)
  end.

(** The 256 intensities. *)
Definition intensities : list Z := map Z.of_nat (seq 0 256).

Definition rgb_eqb (c d : rgb) : bool :=
  match c, d with
  | (r, g, b), (r', g', b') => (r =? r')%Z && (g =? g')%Z && (b =? b')%Z
  end.

(** The channel formulas of the [heat] and [blue_to_brown] schemes in
    unbounded integers. *)
Definition heat_formula (v : Z) : rgb :=
  if (v <? 85)%Z then (0, 3 * v, 255)%Z
  else if (v <? 170)%Z then (3 * (v - 85), 0, 255 - 3 * (v - 85))%Z
  else (255, 3 * (v - 170), 0)%Z.

Definition blue_to_brown_formula (v : Z) : rgb :=
  if (170 <? v)%Z then (0, v / 2, v)%Z
  else if (85 <? v)%Z then (100 - v / 2, 100 + v / 3, v)%Z
  else (140 - v / 2, 80 - v / 4, v / 3)%Z.

End Colour.

(* ================================================================== *)
(** ** The request checks of [analyze] and the report helpers  (src/app.py) *)
(* ================================================================== *)

Module Request.

Open Scope float_scope.

(** How the checks at the head of [analyze] end: a 400 answer with its
    message, the 500 answer of the route's [except] (a malformed pair
    fails to unpack), or the four coordinates to go on with. *)
Inductive checked : Type :=
| Error400 (message : string)
| Error500
| Proceed (min_lon min_lat max_lon max_lat : float).

(** [bounds = data.get('bounds')] and the three checks that follow; the
    JSON value is a list of coordinate lists, or missing. *)
Definition check_bounds (bounds : option (list (list float))) : checked :=
  match bounds with
  | None => Error400 "Invalid bounds provided. Please select an area on the map."
  | Some [] => Error400 "Invalid bounds provided. Please select an area on the map."
  | Some [[min_lon; min_lat]; [max_lon; max_lat]] =>
      if negb ((-180 <=? min_lon) && (min_lon <=? 180)
               && ((-180 <=? max_lon) && (max_lon <=? 180))
               && ((-90 <=? min_lat) && (min_lat <=? 90))
               && ((-90 <=? max_lat) && (max_lat <=? 90)))
      then Error400 "Invalid coordinates. Please select a valid area on Earth."
      else if (max_lon <=? min_lon) || (max_lat <=? min_lat)
      then Error400 "Invalid area selection. Please ensure proper bounds."
      else Proceed min_lon min_lat max_lon max_lat
  | Some [_; _] => Error500
  | Some _ => Error400 "Invalid bounds provided. Please select an area on the map."
  end.

(** The size limit and the resolution tiers of [analyze]: no resolution
    above 10,000 square kilometres, else 20, 30, 60 or 100 metres. *)
Inductive resolution_choice : Type :=
| TooLarge
| Resolution (metres : Z).

Definition choose_resolution (area_km2 : float) : resolution_choice :=
  if F64.gt area_km2 10000 then TooLarge
  else if area_km2 <? 100 then Resolution 20
  else if area_km2 <? 1000 then Resolution 30
  else if area_km2 <? 5000 then Resolution 60
  else Resolution 100.

(** The order of binary64 values as a lexicographic order on integer
    triples: class and sign first, then exponent, then mantissa. *)
Definition order_key (s : spec_float) : Z * Z * Z :=
  match s with
  | S754_nan => (0, 0, 0)
  | S754_zero _ => (0, 0, 0)
  | S754_infinity false => (2, 0, 0)
  | S754_infinity true => (-2, 0, 0)
  | S754_finite false m e => (1, e, Zpos m)
  | S754_finite true m e => (-1, - e, Zneg m)
  end%Z.

Definition compare_keys (x y : Z * Z * Z) : comparison :=
  match x, y with
  | (x1, x2, x3), (y1, y2, y3) =>
      match (x1 ?= y1)%Z with
      | Eq => match (x2 ?= y2)%Z with
              | Eq => (x3 ?= y3)%Z
              | c => c
              end
      | c => c
      end
  end.

End Request.

Module Report.

Open Scope float_scope.

Definition get_risk_level_text (score : float) : string :=
  if score <? 3 then "Low Risk"
  else if score <? 6 then "Moderate Risk"
  else if score <? 8 then "High Risk"
  else "Critical Risk".

(** [risk_values.get(key, 0)] *)
Definition get_or_zero (risk_values : list (string * float)) (key : string) : float :=
  match dict_get risk_values key with
  | Some v => v
  | None => 0
  end.

(** [recommendations.append(text)] when the factor's score exceeds 6. *)
Definition append_if_high (risk_values : list (string * float)) (key text : string)
    (recommendations : list string) : list string :=
  if F64.gt (get_or_zero risk_values key) 6
  then (recommendations ++ [text])%list
  else recommendations.

Definition general_recommendations : list string :=
  ["Regular monitoring recommended using satellite-based risk assessment.";
   "Consider updating insurance coverage based on identified risk factors."].

(** [generate_recommendations]; [risk_values] is the dict of factor scores
    (an empty or missing one is falsy), [index_values] is taken and not
    read. *)
Definition generate_recommendations (total_risk : float)
    (risk_values : list (string * float)) (index_values : pyobj) : list string :=
  let recommendations : list string :=
    if F64.gt total_risk 7 then
      ["Immediate attention required due to high overall risk levels.";
       "Consider comprehensive risk mitigation strategies."]
    else if F64.gt total_risk 5 then
      ["Moderate risk levels detected - implement preventive measures."]
    else
      ["Low risk levels detected - maintain current monitoring practices."] in
  let recommendations :=
    match risk_values with
    | [] => recommendations
    | _ :: _ =>
        let r := append_if_high risk_values "vegetation_health"
          "Poor vegetation health detected - consider fire prevention measures."
          recommendations in
        let r := append_if_high risk_values "water_stress"
          "High water stress identified - monitor drought conditions and water supply."
          r in
        let r := append_if_high risk_values "burn_areas"
          "Fire risk detected - review fire safety protocols and insurance coverage."
          r in
        let r := append_if_high risk_values "roof_risk"
          "Roof vulnerability identified - consider structural assessments and improvements."
          r in
        append_if_high risk_values "drainage_risk"
          "Drainage issues detected - assess flood risk and drainage infrastructure."
          r
    end in
  (recommendations ++ general_recommendations)%list.

(** What [get_trend_summary] can raise. *)
Inductive raised : Type :=
| KeyError
| TypeError
| ZeroDivisionError.

Inductive outcome (A : Type) : Type :=
| Returns (a : A)
| Raises (e : raised).

Arguments Returns {A} a.
Arguments Raises {A} e.

Definition and_then {A B : Type} (m : outcome A) (k : A -> outcome B) : outcome B :=
  match m with
  | Returns a => k a
  | Raises e => Raises e
  end.

Fixpoint for_each {A B : Type} (h : A -> outcome B) (l : list A) : outcome (list B) :=
  match l with
  | [] => Returns []
  | x :: rest =>
      and_then (h x) (fun y =>
      and_then (for_each h rest) (fun ys => Returns (y :: ys)))
  end.

(** [item['composite_risk']] *)
Definition composite_risk_item (item : list (string * pyobj)) : outcome pyobj :=
  match dict_get item "composite_risk" with
  | Some o => Returns o
  | None => Raises KeyError
  end.

(** The value of an object in arithmetic: floats, integers (converted as
    [float] does, exact up to 2^53) and booleans are numbers, anything
    else makes the operation raise [TypeError]. *)
Definition number (o : pyobj) : outcome float :=
  match o with
  | PyFloat f => Returns f
  | PyInt z => Returns (F64.of_Z z)
  | PyBool b => Returns (if b then 1 else 0)
  | PyNp (NpInt z) => Returns (F64.of_Z z)
  | PyNp (NpFloat f) => Returns f
  | _ => Raises TypeError
  end.

(** [a / b] on Python numbers *)
Definition divide (a b : float) : outcome float :=
  if b =? 0 then Raises ZeroDivisionError else Returns (a / b).

(** [max(risks)] and [min(risks)]: the first item, replaced by every later
    one that compares greater (smaller). *)
Definition py_max (l : list float) : float :=
  match l with
  | [] => nan
  | x :: rest => fold_left (fun m r => if m <? r then r else m) rest x
  end.

Definition py_min (l : list float) : float :=
  match l with
  | [] => nan
  | x :: rest => fold_left (fun m r => if r <? m then r else m) rest x
  end.

Section Formatting.

(** [f"{x:.1f}"], the decimal rendering of a float with one digit. *)
Variable format_1f : float -> string.

Definition trend_sentence (first_risk last_risk : float) : outcome string :=
  let change := last_risk - first_risk in
  if abs change <? 0.5 then
    Returns "Risk levels have remained relatively stable over the analysis period."
  else if 0 <? change then
    and_then (divide change first_risk) (fun ratio =>
      Returns ("Risk levels have increased by " ++ format_1f change
               ++ " points (" ++ format_1f (ratio * 100)
               ++ "%) over the analysis period."))
  else
    and_then (divide (abs change) first_risk) (fun ratio =>
      Returns ("Risk levels have decreased by " ++ format_1f (abs change)
               ++ " points (" ++ format_1f (ratio * 100)
               ++ "%) over the analysis period.")).

Definition get_trend_summary (trend_data : list (list (string * pyobj)))
  : outcome string :=
  if Nat.ltb (List.length trend_data) 2 then
    Returns "Insufficient data for trend analysis."
  else
    and_then (composite_risk_item (hd [] trend_data)) (fun first_obj =>
    and_then (composite_risk_item (last trend_data [])) (fun last_obj =>
    and_then (number first_obj) (fun first_risk =>
    and_then (number last_obj) (fun last_risk =>
    and_then (trend_sentence first_risk last_risk) (fun trend_text =>
    and_then (for_each composite_risk_item trend_data) (fun objs =>
    and_then (for_each number objs) (fun risks =>
      let max_risk := py_max risks in
      let min_risk := py_min risks in
      let avg_risk := F64.sum risks / F64.of_nat (List.length risks) in
      Returns (trend_text
               ++ " The analysis period shows an average risk of "
               ++ format_1f avg_risk
               ++ ", with values ranging from " ++ format_1f min_risk
               ++ " to " ++ format_1f max_risk ++ ".")))))))).

End Formatting.

(** The four level texts in increasing order of severity. *)
Definition level_index (text : string) : nat :=
  if String.eqb text "Low Risk" then 0
  else if String.eqb text "Moderate Risk" then 1
  else if String.eqb text "High Risk" then 2
  else 3.

(** One period of a trend run, as far as the summary reads it. *)
Definition period (composite_risk : float) : list (string * pyobj) :=
  [("analysis_date", PyStr "2024-06-01"); ("composite_risk", PyFloat composite_risk)].

(** The numeric value of every period's composite risk, when all have one. *)
Definition period_risks (trend_data : list (list (string * pyobj)))
  : outcome (list float) :=
  and_then (for_each composite_risk_item trend_data) (for_each number).

End Report.

(* ================================================================== *)
(** ** Sample structures *)
(* ================================================================== *)

Module Samples.

Open Scope float_scope.

(** A nested result with NaN and infinity among Python floats and numpy
    scalars, and an ndarray of integers. *)
Definition mixed_values : pyobj :=
  PyDict [("a", PyFloat nan);
          ("b", PyList [PyFloat 1; PyFloat infinity; PyNp (NpFloat neg_infinity)]);
          ("c", PyNp (NpInt 7));
          ("d", PyNdarray (NdAxis [NdItem (NpInt 3); NdItem (NpFloat 0.5)]))].

(** A 1x3 roof grid with one NaN pixel. *)
Definition roof_with_nan : grid := mk_array2 1 3 [0.2; nan; 0.9].

End Samples.

(* ================================================================== *)
(** ** The composite of threshold layers *)
(* ================================================================== *)

Module Tiered.

Import Risk.
Open Scope float_scope.

(** A composite value between the lowest and the highest tier. *)
Definition in_tier_range (x : float) : bool := (2 <=? x) && (x <=? 9).

(** A tier of a threshold converter: an integer from 2 to 9. *)
Definition tier_value (z : Z) : bool := ((2 <=? z) && (z <=? 9))%Z.

(** An integer layer holding tiers only. *)
Definition tiered_layer (l : layer) : bool :=
  match l with
  | IntLayer a => forallb tier_value (data a)
  | FloatLayer _ => false
  end.

Definition tiered (st : state) : Prop :=
  Forall (fun p => tiered_layer (snd p) = true) (risk_layers st).

(** The input of the step is absent, or its converter is a threshold one. *)
Definition threshold_step (p : factor * raw_data) : bool :=
  match snd p with
  | None => true
  | Some _ => is_threshold (fst p)
  end.

(** The same binary64 value, bit for bit. *)
Definition same_float (x y : float) : bool :=
  match Prim2SF x, Prim2SF y with
  | S754_zero a, S754_zero b => Bool.eqb a b
  | S754_infinity a, S754_infinity b => Bool.eqb a b
  | S754_nan, S754_nan => true
  | S754_finite a m e, S754_finite b n k =>
      Bool.eqb a b && Pos.eqb m n && Z.eqb e k
  | _, _ => false
  end.

Definition tier_sum (zs : list Z) : Z := fold_right Z.add 0%Z zs.

(** Adding a tier to a sum of at most five tiers is exact in binary64. *)
Definition sums_exact : bool :=
  forallb (fun a =>
             forallb (fun b =>
                        same_float (F64.of_Z (Z.of_nat a) + F64.of_Z (Z.of_nat b))
                                   (F64.of_Z (Z.of_nat a + Z.of_nat b)))
                     (seq 2 8))
          (seq 0 46).

(** The clamped quotient the composite takes for [n] layers whose values
    at a pixel sum to [total]. *)
Definition clamped_mean (total : Z) (n : nat) : float :=
  F64.clip (F64.of_Z total / F64.of_nat n) 1 10.

(** For one to six layers and every possible sum of their tiers. *)
Definition means_in_tier_range : bool :=
  forallb (fun n =>
             forallb (fun t =>
                        implb ((2 * n <=? t) && (t <=? 9 * n))%nat
                              (in_tier_range (clamped_mean (Z.of_nat t) n)))
                     (seq 0 55))
          (seq 1 6).

End Tiered.

(* ================================================================== *)
(** * Properties *)
(* ================================================================== *)

(** ** Comparisons with NaN *)

Module F64Facts.

Open Scope float_scope.

Lemma nan_spec (x : float) : is_nan x = true -> Prim2SF x = S754_nan.
Proof.
  intros H. unfold Prim2SF. now rewrite H.
Qed.

Lemma SFcompare_nan_r (s : spec_float) : SFcompare s S754_nan = None.
Proof. now destruct s. Qed.

Lemma SFcompare_nan_l (s : spec_float) : SFcompare S754_nan s = None.
Proof. reflexivity. Qed.

(** [c < x] is false for a NaN [x]. *)
Lemma ltb_nan_r (c x : float) : is_nan x = true -> (c <? x) = false.
Proof.
  intros H. rewrite ltb_spec, (nan_spec x H). unfold SFltb.
  now rewrite SFcompare_nan_r.
Qed.

(** [x < c] is false for a NaN [x]. *)
Lemma ltb_nan_l (c x : float) : is_nan x = true -> (x <? c) = false.
Proof.
  intros H. rewrite ltb_spec, (nan_spec x H). reflexivity.
Qed.

Lemma gt_nan (x c : float) : F64.isnan x = true -> F64.gt x c = false.
Proof. apply ltb_nan_r. Qed.

(** A NaN accumulator survives [np.maximum] and [np.minimum]. *)
Lemma fold_maximum_nan (l : list float) (x : float) :
  is_nan x = true -> fold_left F64.maximum l x = x.
Proof.
  revert x. induction l as [|y l IH]; intros x H; simpl; [reflexivity|].
  unfold F64.maximum at 2. rewrite H. now apply IH.
Qed.

Lemma fold_minimum_nan (l : list float) (x : float) :
  is_nan x = true -> fold_left F64.minimum l x = x.
Proof.
  revert x. induction l as [|y l IH]; intros x H; simpl; [reflexivity|].
  unfold F64.minimum at 2. rewrite H. now apply IH.
Qed.

(** On the range of the composite, [np.clip] is the three-way clamp. *)
Lemma clip_1_10 (x : float) :
  F64.clip x 1 10 = Risk.spec_clamp x 1 10.
Proof.
  unfold F64.clip, Risk.spec_clamp, F64.maximum, F64.minimum, F64.isnan.
  destruct (is_nan x) eqn:Hn.
  - now rewrite Hn.
  - change (is_nan 1) with false. change (is_nan 10) with false. cbv iota.
    destruct (x <? 1) eqn:H1.
    + reflexivity.
    + rewrite Hn. reflexivity.
Qed.

End F64Facts.

(** ** The sanitizer *)

Module SanitizerFacts.

Import Sanitizer.

(** Induction over nested arrays and objects, with the hypothesis on every
    element of a sequence. *)
Lemma ndarray_induction (P : ndarray -> Prop) :
  (forall x, P (NdItem x)) ->
  (forall l, Forall P l -> P (NdAxis l)) ->
  forall a, P a.
Proof.
  intros Hitem Haxis. fix IH 1. intros [x|l].
  - apply Hitem.
  - apply Haxis. revert l. fix IHl 1. intros [|a l]; constructor.
    + apply IH.
    + apply IHl.
Qed.

Lemma pyobj_induction (P : pyobj -> Prop) :
  (forall kv, Forall (fun p => P (snd p)) kv -> P (PyDict kv)) ->
  (forall l, Forall P l -> P (PyList l)) ->
  (forall o, match o with PyDict _ | PyList _ => True | _ => P o end) ->
  forall o, P o.
Proof.
  intros Hdict Hlist Hleaf. fix IH 1. intros o.
  destruct o as [kv|l|x|a|f|z|s|b|].
  - apply Hdict. revert kv. fix IHkv 1. intros [|[k v] kv]; constructor.
    + apply IH.
    + apply IHkv.
  - apply Hlist. revert l. fix IHl 1. intros [|o l]; constructor.
    + apply IH.
    + apply IHl.
  - exact (Hleaf (PyNp x)).
  - exact (Hleaf (PyNdarray a)).
  - exact (Hleaf (PyFloat f)).
  - exact (Hleaf (PyInt z)).
  - exact (Hleaf (PyStr s)).
  - exact (Hleaf (PyBool b)).
  - exact (Hleaf PyNone).
Qed.

Lemma forallb_map_Forall {A B : Type} (h : A -> B) (p : A -> bool) (q : B -> bool)
    (l : list A) :
  Forall (fun x => p x = true -> q (h x) = true) l ->
  forallb p l = true -> forallb q (map h l) = true.
Proof.
  induction 1 as [|x l Hx _ IH]; simpl; [reflexivity|].
  intros H. apply andb_true_iff in H. destruct H as [H1 H2].
  now rewrite (Hx H1), (IH H2).
Qed.

Lemma map_idem_Forall {A B : Type} (h : B -> B) (k : A -> B) (p : A -> bool)
    (l : list A) :
  Forall (fun x => p x = true -> h (k x) = k x) l ->
  forallb p l = true -> map h (map k l) = map k l.
Proof.
  induction 1 as [|x l Hx _ IH]; simpl; [reflexivity|].
  intros H. apply andb_true_iff in H. destruct H as [H1 H2].
  now rewrite (Hx H1), (IH H2).
Qed.

(** [tolist] of an array without NaN and infinities is safe, and the
    sanitizer leaves it as it is. *)
Lemma tolist_safe (a : ndarray) :
  finite_array a = true -> json_safe (tolist a) = true.
Proof.
  pattern a. revert a. apply ndarray_induction; [intros [z|f] | intros l IH]; simpl; auto.
  intros H. now apply (forallb_map_Forall tolist finite_array json_safe).
Qed.

Lemma tolist_fixed (a : ndarray) :
  finite_array a = true -> sanitize_for_json (tolist a) = tolist a.
Proof.
  pattern a. revert a. apply ndarray_induction; [intros [z|f] | intros l IH]; simpl; auto.
  - intros H. apply negb_true_iff in H. now rewrite H.
  - intros H. f_equal. now apply (map_idem_Forall sanitize_for_json tolist finite_array).
Qed.

(** Apart from ndarrays that hold NaN or infinities, the result of the
    sanitizer is safe. *)
Lemma sanitize_safe_on_regular (o : pyobj) :
  regular o = true -> json_safe (sanitize_for_json o) = true.
Proof.
  pattern o. revert o. apply pyobj_induction; [intros kv IH | intros l IH | intros o].
  - simpl. intros H.
    apply (forallb_map_Forall _ (fun p => regular (snd p))
             (fun p => json_safe (snd p)) kv); [|exact H].
    eapply Forall_impl; [|exact IH]. now intros [k v].
  - simpl. intros H. now apply (forallb_map_Forall _ regular json_safe).
  - destruct o as [kv|l|[z|f]|a|f|z|s|b|]; simpl; auto.
    + destruct (F64.isnan f || F64.isinf f) eqn:E; simpl; [reflexivity|].
      now rewrite E.
    + apply tolist_safe.
    + destruct (F64.isnan f || F64.isinf f) eqn:E; simpl; [reflexivity|].
      now rewrite E.
Qed.

(** On the same structures, a second pass changes nothing. *)
Lemma sanitize_idempotent_on_regular (o : pyobj) :
  regular o = true ->
  sanitize_for_json (sanitize_for_json o) = sanitize_for_json o.
Proof.
  pattern o. revert o. apply pyobj_induction; [intros kv IH | intros l IH | intros o].
  - simpl. intros H. f_equal.
    apply (map_idem_Forall _ _ (fun p => regular (snd p))); [|exact H].
    eapply Forall_impl; [|exact IH]. intros [k v] Hv Hr. simpl in *.
    now rewrite (Hv Hr).
  - simpl. intros H. f_equal. now apply (map_idem_Forall _ _ regular).
  - destruct o as [kv|l|[z|f]|a|f|z|s|b|]; simpl; auto.
    + intros H. apply negb_true_iff in H. now rewrite H.
    + destruct (F64.isnan f || F64.isinf f) eqn:E; simpl; [reflexivity|].
      now rewrite E.
    + apply tolist_fixed.
    + destruct (F64.isnan f || F64.isinf f) eqn:E; simpl; [reflexivity|].
      now rewrite E.
Qed.

(** C1.  The claim says that no NaN survives [sanitize_for_json], also
    inside numpy arrays.  The ndarray branch returns [obj.tolist()]
    without walking the list: on [np.array([nan])] the result is the list
    [[nan]], which still holds the NaN. *)
Theorem sanitize_keeps_nan_of_ndarray :
  sanitize_for_json nan_array = PyList [PyFloat nan]
  /\ json_safe (sanitize_for_json nan_array) = false.
Proof. split; reflexivity. Qed.

(** C2.  The claim says that sanitizing twice equals sanitizing once.
    On [np.array([nan])] the first pass yields the list [[nan]] and the
    second pass, which now meets a list of Python floats, yields [[0.0]]:
    the first result is not safe, the second is, so they differ. *)
Theorem sanitize_twice_differs_on_ndarray :
  sanitize_for_json nan_array = PyList [PyFloat nan]
  /\ sanitize_for_json (sanitize_for_json nan_array) = PyList [PyFloat 0%float]
  /\ json_safe (sanitize_for_json nan_array) = false
  /\ json_safe (sanitize_for_json (sanitize_for_json nan_array)) = true.
Proof. repeat split; reflexivity. Qed.

End SanitizerFacts.

(** ** Dictionaries and arrays *)

Module ContainerFacts.

Lemma dict_get_set_same {V : Type} (d : list (string * V)) (k : string) (v : V) :
  dict_get (dict_set d k v) k = Some v.
Proof.
  induction d as [|[k' w] d IH]; simpl.
  - now rewrite String.eqb_refl.
  - destruct (String.eqb k' k) eqn:E; simpl; rewrite E; [reflexivity | exact IH].
Qed.

Lemma dict_set_cons {V : Type} (d : list (string * V)) (k : string) (v : V) :
  exists p rest, dict_set d k v = p :: rest.
Proof.
  destruct d as [|[k' w] d]; simpl.
  - now eexists; eexists.
  - destruct (String.eqb k' k); now eexists; eexists.
Qed.

(** Every value of [dict_set d k v] is [v] or was a value of [d]. *)
Lemma dict_set_Forall {V : Type} (P : string * V -> Prop)
    (d : list (string * V)) (k : string) (v : V) :
  Forall P d -> (forall k', P (k', v)) -> Forall P (dict_set d k v).
Proof.
  intros Hd Hv. induction Hd as [|[k' w] d Hp Hd IH]; simpl.
  - constructor; [apply Hv | constructor].
  - destruct (String.eqb k' k); constructor; auto.
Qed.

Lemma nth_map_in {A B : Type} (h : A -> B) (l : list A) (k : nat) (a : A) (b : B) :
  (k < List.length l)%nat -> nth k (map h l) b = h (nth k l a).
Proof.
  intros Hk. rewrite (nth_indep _ b (h a)) by now rewrite length_map.
  apply map_nth.
Qed.

Lemma nth_map_seq {B : Type} (h : nat -> B) (n k : nat) (b : B) :
  (k < n)%nat -> nth k (map h (seq 0 n)) b = h k.
Proof.
  intros Hk. rewrite (nth_map_in h _ k 0%nat) by now rewrite length_seq.
  now rewrite seq_nth.
Qed.

Lemma map_constant {A B : Type} (h : A -> B) (c : B) (l : list A) :
  (forall x, In x l -> h x = c) -> map h l = repeat c (List.length l).
Proof.
  induction l as [|x l IH]; intros H; simpl; [reflexivity|].
  rewrite (H x) by now left. f_equal. apply IH. intros y Hy. apply H. now right.
Qed.

(** The grid that [channel0] extracts owns a buffer of the right length. *)
Lemma channel0_well_formed (a : array3) (g : grid) :
  channel0 a = Ok g ->
  well_formed g /\ shape g = (dim0 a, dim1 a).
Proof.
  unfold channel0. destruct (dim2 a); [discriminate|].
  intros H. injection H as <-. split; [|reflexivity].
  unfold well_formed, size. simpl. now rewrite length_map, length_seq.
Qed.

End ContainerFacts.

(** ** The risk converters *)

Module ConverterFacts.

Import Risk Run ContainerFacts F64Facts.
Open Scope float_scope.

Lemma bind_ok {A B : Type} (m : result A) (k : A -> result B) (b : B) :
  bind m k = Ok b -> exists a, m = Ok a /\ k a = Ok b.
Proof.
  destruct m as [a|e]; simpl; intros H; [now exists a | discriminate].
Qed.

Lemma bind_unit {A B : Type} (a : A) (k : A -> result B) : bind (Ok a) k = k a.
Proof. reflexivity. Qed.

Ltac invert_binds :=
  repeat match goal with
         | H : bind _ _ = Ok _ |- _ =>
             let a := fresh "a" in
             let Ha := fresh "Ha" in
             apply bind_ok in H; destruct H as [a [Ha H]]
         end.

Lemma nan_statistics_ok (g : grid) (u : unit) :
  nan_statistics g = Ok u -> size g <> 0%nat.
Proof.
  unfold nan_statistics. destruct (Nat.eqb_spec (size g) 0); [discriminate|auto].
Qed.

Lemma nan_statistics_nonempty (g : grid) :
  size g <> 0%nat -> nan_statistics g = Ok tt.
Proof.
  unfold nan_statistics. destruct (Nat.eqb_spec (size g) 0); [contradiction|auto].
Qed.

(** A threshold converter sends a NaN to its last tier. *)
Lemma threshold_rule_nan (f : factor) (x : float) :
  F64.isnan x = true -> threshold_rule f x = else_tier f.
Proof.
  intros H. destruct f; simpl;
    unfold vegetation_rule, water_rule, urban_rule, burn_rule, drainage_rule;
    rewrite ?(gt_nan x _ H); reflexivity.
Qed.

(** A threshold converter only produces its three tiers. *)
Lemma threshold_rule_in_tiers (f : factor) (x : float) :
  is_threshold f = true -> In (threshold_rule f x) (tiers f).
Proof.
  destruct f; simpl; try discriminate; intros _;
    unfold vegetation_rule, water_rule, urban_rule, burn_rule, drainage_rule;
    repeat match goal with
           | |- context [F64.gt ?a ?b] => destruct (F64.gt a b)
           end; auto.
Qed.

Lemma factor_eq_veg (f : factor) :
  f = vegetation_health \/ f <> vegetation_health.
Proof. destruct f; (now left) || (right; discriminate). Qed.

Lemma risk_of_threshold (f : factor) (g : grid) :
  is_threshold f = true ->
  risk_of f g = Ok (IntLayer (map2d (threshold_rule f) g)).
Proof. destruct f; simpl; intros H; (discriminate || reflexivity). Qed.

(** C10.  In each of the five threshold converters a pixel whose raw value
    is NaN gets the tier of the final else branch (vegetation 7, water 8,
    urban 2, burn 8, drainage 9): the risk layer of the converter holds
    that tier at the pixel's (row-major) position. *)
Theorem nan_pixel_gets_else_tier (f : factor) (g : grid) (k : nat) :
  is_threshold f = true ->
  (k < List.length (data g))%nat ->
  F64.isnan (nth k (data g) nan) = true ->
  exists a,
    risk_of f g = Ok (IntLayer a)
    /\ shape a = shape g
    /\ nth k (data a) 0%Z = else_tier f.
Proof.
  intros Hf Hk Hnan. exists (map2d (threshold_rule f) g).
  split; [now apply risk_of_threshold|]. split; [reflexivity|].
  simpl. rewrite (nth_map_in _ _ _ nan) by exact Hk.
  now apply threshold_rule_nan.
Qed.

Lemma nan_pixel_gets_else_tier_witness :
  exists a,
    risk_of water_stress (mk_array2 1 2 [0.5; nan]) = Ok (IntLayer a)
    /\ shape a = (1, 2)%nat
    /\ nth 1 (data a) 0%Z = 8%Z.
Proof.
  apply (nan_pixel_gets_else_tier water_stress (mk_array2 1 2 [0.5; nan]) 1).
  - reflexivity.
  - simpl. lia.
  - reflexivity.
Defined.

(** C6.  The claim says that every value of a risk grid lies in the
    converter's tier set, also for inputs with infinite values.  On the
    roof grid [[1.0, inf]] the maximum is infinite, the normalised value
    of the infinite pixel is [inf / inf], and the roof layer holds a NaN
    there: a value outside the integers of [2, 10]. *)
Theorem roof_layer_nan_on_infinite_input (zoom : grid -> float * float -> grid) :
  exists st l,
    factor_phase zoom None None None None roof_with_infinity None = Ok st
    /\ dict_get (risk_layers st) "roof_risk" = Some l
    /\ l = FloatLayer (mk_array2 1 2 [2; nan])
    /\ layer_has_nan l = true
    /\ layer_in_tiers roof_risk l = false.
Proof.
  eexists. eexists. split; [reflexivity|]. repeat split.
Qed.

End ConverterFacts.

(** ** The composite *)

Module CompositeFacts.

Import Risk Run ContainerFacts F64Facts ConverterFacts.
Open Scope float_scope.

(** C5.  With no factor input present, [process_risk_data] does not raise
    and returns the 256x256 grid whose every value is 5.0, together with
    the summary that carries the no-data message. *)
Theorem no_input_gives_neutral_grid (zoom : grid -> float * float -> grid) :
  process_risk_data zoom None None None None None None
  = Ok (Ret2 (mk_array2 256 256 (repeat 5 (256 * 256)))
             (PyDict [("message", PyStr "No satellite data available")]))
  /\ raises (process_risk_data zoom None None None None None None) = false.
Proof. split; reflexivity. Qed.

(** C4.  The claim says that every invocation returns the triple of
    composite grid, index values with ["composite_risk"], and per-factor
    risk values.  With no factor input present the function leaves
    through the no-data exit, which returns a pair: there is no third
    component, and the summary has no ["composite_risk"] entry. *)
Theorem no_input_returns_a_pair (zoom : grid -> float * float -> grid) :
  is_triple (process_risk_data zoom None None None None None None) = false
  /\ exists g, process_risk_data zoom None None None None None None
               = Ok (Ret2 g no_data_message)
  /\ dict_get [("message", PyStr "No satellite data available")] "composite_risk"
     = None.
Proof.
  split; [reflexivity|]. eexists. split; reflexivity.
Qed.

(** *** Accumulating layers of one shape *)

Lemma broadcast_item_same_shape (l : grid) (h w k : nat) :
  shape l = (h, w) -> (k < h * w)%nat ->
  broadcast_item l (k / w) (k mod w) = nth k (data l) nan.
Proof.
  unfold shape, broadcast_item. intros Hs Hk. injection Hs as Hh Hw.
  rewrite Hh, Hw. f_equal.
  assert (Hw0 : w <> 0%nat) by (intros ->; lia).
  destruct (Nat.eqb_spec w 1) as [->|Hw1].
  - rewrite Nat.div_1_r. destruct (Nat.eqb_spec h 1) as [->|Hh1]; lia.
  - destruct (Nat.eqb_spec h 1) as [->|Hh1].
    + rewrite Nat.mod_small by lia. lia.
    + pose proof (Nat.div_mod_eq k w). lia.
Qed.

Lemma iadd_same_shape (total l : grid) :
  shape l = shape total ->
  iadd total l
  = Ok (mk_array2 (nrows total) (ncols total)
          (map (fun k => nth k (data total) nan + nth k (data l) nan)
               (seq 0 (size total)))).
Proof.
  intros Hs. unfold iadd, broadcastable.
  assert (Hr : nrows l = nrows total) by (unfold shape in Hs; congruence).
  assert (Hc : ncols l = ncols total) by (unfold shape in Hs; congruence).
  rewrite Hr, Hc, !Nat.eqb_refl. simpl. do 2 f_equal.
  apply map_ext_in. intros k Hk. apply in_seq in Hk. f_equal.
  apply (broadcast_item_same_shape l (nrows total) (ncols total)).
  - exact Hs.
  - unfold size in Hk. lia.
Qed.

(** The loop adds, at every position, the layers' values in order. *)
Lemma accumulate_same_shape (layers : list (string * layer)) :
  forall (total : grid) (count : nat),
    size total <> 0%nat ->
    well_formed total ->
    layers_shaped (shape total) layers ->
    exists total',
      accumulate layers total count = Ok (total', (count + List.length layers)%nat)
      /\ shape total' = shape total
      /\ well_formed total'
      /\ forall k, (k < size total)%nat ->
           nth k (data total') nan
           = fold_left add (pixel_values k layers) (nth k (data total) nan).
Proof.
  induction layers as [|[name l] layers IH]; intros total count Hne Hwft Hall.
  - exists total. simpl. rewrite Nat.add_0_r. auto.
  - inversion Hall as [|p ps [Hshape Hwf] Hrest]; subst. simpl in Hshape.
    simpl accumulate. unfold layer_statistics.
    rewrite nan_statistics_nonempty.
    2:{ unfold layer_shape, shape in Hshape. unfold size in *.
        injection Hshape as -> ->. exact Hne. }
    simpl bind. rewrite (iadd_same_shape total _ Hshape). simpl bind.
    set (t := mk_array2 _ _ _).
    destruct (IH t (S count)) as [total' [Hacc [Hsh [Hwf' Hpix]]]].
    + exact Hne.
    + unfold well_formed, t. simpl. now rewrite length_map, length_seq.
    + exact Hrest.
    + exists total'. split; [|split; [|split]].
      * rewrite Hacc. do 2 f_equal. simpl. lia.
      * exact Hsh.
      * exact Hwf'.
      * intros k Hk. rewrite (Hpix k Hk). simpl. f_equal.
        unfold t. simpl.
        exact (nth_map_seq
                 (fun i => nth i (data total) nan
                           + nth i (data (astype_float64 l)) nan)
                 (size total) k nan Hk).
Qed.

End CompositeFacts.

(** ** The factor blocks, one after the other *)

Module PipelineFacts.

Import Risk Run ContainerFacts F64Facts ConverterFacts CompositeFacts.
Open Scope float_scope.

Section WithZoom.

Variable zoom : grid -> float * float -> grid.

(** What a successful block has done. *)
Lemma process_factor_inv (f : factor) (raw : list array3) (st st' : state) :
  process_factor zoom f (Some raw) st = Ok st' ->
  exists g g' l ref',
    raw_grid raw = Ok g
    /\ size g <> 0%nat
    /\ risk_of f g' = Ok l
    /\ size (astype_float64 l) <> 0%nat
    /\ st' = store f g' l ref' st
    /\ ((f = vegetation_health /\ g' = g /\ ref' = Some (shape g))
        \/ (f <> vegetation_health
            /\ align zoom (reference_shape st) g = Ok (g', ref'))).
Proof.
  intros H.
  destruct f; simpl in H;
    unfold process_vegetation, process_aligned in H; invert_binds;
    injection H as <-.
  - exists a, a, a1, (Some (shape a)).
    repeat split; eauto using nan_statistics_ok.
  - destruct a1 as [g' ref']. exists a, g', a2, ref'.
    repeat split; eauto using nan_statistics_ok. right. split; [discriminate|auto].
  - destruct a1 as [g' ref']. exists a, g', a2, ref'.
    repeat split; eauto using nan_statistics_ok. right. split; [discriminate|auto].
  - destruct a1 as [g' ref']. exists a, g', a2, ref'.
    repeat split; eauto using nan_statistics_ok. right. split; [discriminate|auto].
  - destruct a1 as [g' ref']. exists a, g', a2, ref'.
    repeat split; eauto using nan_statistics_ok. right. split; [discriminate|auto].
  - destruct a1 as [g' ref']. exists a, g', a2, ref'.
    repeat split; eauto using nan_statistics_ok. right. split; [discriminate|auto].
Qed.

(** The alignment block never replaces a reference shape. *)
Lemma align_keeps (s : nat * nat) (g g' : grid) (ref' : option (nat * nat)) :
  align zoom (Some s) g = Ok (g', ref') ->
  ref' = Some s
  /\ (shape g = s -> g' = g)
  /\ (shape g <> s -> exists z, zoom_factor s g = Ok z /\ g' = zoom g z).
Proof.
  unfold align, shape_eqb.
  destruct (Nat.eqb_spec (fst (shape g)) (fst s)) as [E1|E1];
    destruct (Nat.eqb_spec (snd (shape g)) (snd s)) as [E2|E2]; simpl; intros H.
  - injection H as <- <-. repeat split; auto.
    intros Hne. exfalso. apply Hne. destruct s. simpl in *. unfold shape. congruence.
  - invert_binds. injection H as <- <-. repeat split.
    + intros Hs. rewrite Hs in E2. contradiction.
    + intros _. eauto.
  - invert_binds. injection H as <- <-. repeat split.
    + intros Hs. rewrite Hs in E1. contradiction.
    + intros _. eauto.
  - invert_binds. injection H as <- <-. repeat split.
    + intros Hs. rewrite Hs in E1. contradiction.
    + intros _. eauto.
Qed.

Lemma align_first (g g' : grid) (ref' : option (nat * nat)) :
  align zoom None g = Ok (g', ref') -> g' = g /\ ref' = Some (shape g).
Proof. simpl. intros H. injection H as <- <-. auto. Qed.

(** *** Layers stay non-empty, and there is one once a factor is present *)

Lemma process_factor_layers (f : factor) (d : raw_data) (st st' : state) :
  process_factor zoom f d st = Ok st' ->
  layers_nonempty (risk_layers st) ->
  layers_nonempty (risk_layers st')
  /\ (present d = true \/ risk_layers st <> [] -> risk_layers st' <> []).
Proof.
  destruct d as [raw|].
  - intros H Hinv. apply process_factor_inv in H.
    destruct H as [g [g' [l [ref' [_ [_ [_ [Hl [-> _]]]]]]]]]. simpl. split.
    + apply dict_set_Forall; [exact Hinv | intros k; exact Hl].
    + intros _ E.
      destruct (dict_set_cons (risk_layers st) (factor_name f) l) as [p [r Hp]].
      rewrite Hp in E. discriminate.
  - simpl. intros H Hinv. injection H as <-. split; [exact Hinv|].
    intros [E|E]; [discriminate | exact E].
Qed.

Lemma run_steps_layers (steps : list (factor * raw_data)) :
  forall st st',
    run_steps zoom steps st = Ok st' ->
    layers_nonempty (risk_layers st) ->
    layers_nonempty (risk_layers st')
    /\ (any_present steps = true \/ risk_layers st <> [] -> risk_layers st' <> []).
Proof.
  induction steps as [|[f d] steps IH]; intros st st' H Hinv.
  - simpl in H. injection H as <-. split; [exact Hinv|].
    intros [E|E]; [discriminate | exact E].
  - simpl in H. invert_binds.
    destruct (process_factor_layers f d st a Ha Hinv) as [Hinv1 Hne1].
    destruct (IH a st' H Hinv1) as [Hinv2 Hne2]. split; [exact Hinv2|].
    intros Hp. apply Hne2. unfold any_present in Hp. simpl in Hp.
    fold (any_present steps) in Hp.
    destruct Hp as [Hp|Hp].
    + apply orb_true_iff in Hp. destruct Hp as [Hp|Hp]; [right|left]; auto.
    + right. auto.
Qed.


(** *** The reference shape *)

Lemma process_factor_reference (f : factor) (d : raw_data) (st st' : state) :
  f <> vegetation_health \/ reference_shape st = None ->
  process_factor zoom f d st = Ok st' ->
  reference_shape st'
  = match reference_shape st with
    | Some s => Some s
    | None => first_shape [(f, d)]
    end.
Proof.
  intros Hf H. destruct d as [raw|].
  - apply process_factor_inv in H.
    destruct H as [g [g' [l [ref' [Hg [_ [_ [_ [-> Hcase]]]]]]]]].
    simpl. rewrite Hg.
    destruct Hcase as [[-> [_ ->]]|[_ Hal]].
    + destruct Hf as [Hf|Hf]; [contradiction | now rewrite Hf].
    + destruct (reference_shape st) as [s|].
      * now destruct (align_keeps _ _ _ _ Hal) as [-> _].
      * now destruct (align_first _ _ _ Hal) as [_ ->].
  - simpl in H. injection H as <-. simpl. now destruct (reference_shape st).
Qed.

Lemma run_steps_reference (steps : list (factor * raw_data)) :
  aligned_only steps = true ->
  forall st st',
    run_steps zoom steps st = Ok st' ->
    reference_shape st'
    = match reference_shape st with
      | Some s => Some s
      | None => first_shape steps
      end.
Proof.
  induction steps as [|[f d] steps IH]; intros Hal st st' H.
  - simpl in H. injection H as <-. now destruct (reference_shape st).
  - simpl in Hal. apply andb_true_iff in Hal. destruct Hal as [Hf Hal].
    simpl in H. invert_binds.
    rewrite (IH Hal _ _ H).
    rewrite (process_factor_reference f d st a); [|left; now destruct f|exact Ha].
    destruct (reference_shape st) as [s|]; [reflexivity|].
    simpl. destruct d as [raw|]; [|reflexivity].
    apply process_factor_inv in Ha.
    destruct Ha as [g [_ [_ [_ [Hg _]]]]]. now rewrite Hg.
Qed.

(** From the initial state, with the vegetation block at most in front. *)
Lemma run_from_initial (steps : list (factor * raw_data)) (st : state) :
  aligned_only (tl steps) = true ->
  run_steps zoom steps initial = Ok st ->
  reference_shape st = first_shape steps.
Proof.
  destruct steps as [|[f d] steps]; intros Hal H.
  - simpl in H. now injection H as <-.
  - simpl in Hal, H. invert_binds.
    rewrite (run_steps_reference steps Hal _ _ H).
    rewrite (process_factor_reference f d initial a); [|now right|exact Ha].
    simpl. destruct d as [raw|]; [|reflexivity].
    apply process_factor_inv in Ha.
    destruct Ha as [g [_ [_ [_ [Hg _]]]]]. now rewrite Hg.
Qed.

Lemma aligned_only_firstn (n : nat) (steps : list (factor * raw_data)) :
  aligned_only steps = true -> aligned_only (firstn n steps) = true.
Proof.
  revert n. induction steps as [|p steps IH]; intros [|n] H; try reflexivity.
  simpl in *. apply andb_true_iff in H. destruct H as [Hp H].
  rewrite Hp. simpl. now apply IH.
Qed.

(** A longer prefix keeps the shape that a shorter one has found. *)
Lemma first_shape_firstn (steps : list (factor * raw_data)) :
  forall n m s, (n <= m)%nat ->
    first_shape (firstn n steps) = Some s ->
    first_shape (firstn m steps) = Some s.
Proof.
  induction steps as [|[f d] steps IH]; intros n m s Hnm H.
  - rewrite firstn_nil in *. exact H.
  - destruct n as [|n]; [discriminate|].
    destruct m as [|m]; [lia|].
    simpl in *. destruct d as [raw|]; [exact H|].
    apply (IH n m); [lia | exact H].
Qed.

Lemma prefix_reference (veg water urban burn roof drainage : raw_data)
    (n : nat) (st : state) :
  run_steps zoom (firstn n (all_steps veg water urban burn roof drainage)) initial
  = Ok st ->
  reference_shape st
  = first_shape (firstn n (all_steps veg water urban burn roof drainage)).
Proof.
  apply run_from_initial.
  destruct n as [|n]; [reflexivity|].
  unfold all_steps. rewrite firstn_cons. simpl tl.
  now apply aligned_only_firstn.
Qed.


(** *** Grids without a single valid pixel *)

Lemma filter_all_nan (l : list float) :
  forallb F64.isnan l = true ->
  filter (fun x => negb (F64.isnan x)) l = [].
Proof.
  induction l as [|x l IH]; simpl; [reflexivity|].
  intros H. apply andb_true_iff in H. destruct H as [Hx Hl].
  rewrite Hx. simpl. now apply IH.
Qed.

(** With every item NaN, [np.nanmean] divides an empty sum by zero. *)
Lemma nanmean_all_nan (g : grid) : all_nan g = true -> nanmean g = nan.
Proof.
  intros H. unfold nanmean, nanmean_list.
  now rewrite (filter_all_nan _ H).
Qed.

Lemma roof_rule_all_nan (g : grid) :
  size g <> 0%nat -> well_formed g -> all_nan g = true ->
  roof_rule g = Ok (full (shape g) 5).
Proof.
  intros Hne Hwf Hnan. unfold roof_rule, Np.max, Np.min, all_nan in *.
  unfold well_formed in Hwf.
  destruct (data g) as [|x rest] eqn:E; [simpl in Hwf; congruence|].
  simpl in Hnan. apply andb_true_iff in Hnan. destruct Hnan as [Hx _].
  simpl bind. rewrite (fold_maximum_nan rest x Hx), (fold_minimum_nan rest x Hx).
  unfold F64.gt. now rewrite (ltb_nan_r x x Hx).
Qed.

Lemma risk_of_all_nan (f : factor) (g : grid) :
  size g <> 0%nat -> well_formed g -> all_nan g = true ->
  risk_of f g = Ok (constant_layer f (shape g)).
Proof.
  intros Hne Hwf Hnan.
  assert (Hthr : is_threshold f = true ->
                 risk_of f g = Ok (constant_layer f (shape g))).
  { intros Hf. rewrite (risk_of_threshold f g Hf).
    unfold constant_layer. rewrite Hf. unfold map2d. simpl. do 3 f_equal.
    unfold well_formed, size in Hwf. rewrite <- Hwf.
    apply map_constant. intros x Hx. apply threshold_rule_nan.
    unfold all_nan in Hnan. rewrite forallb_forall in Hnan. now apply Hnan. }
  destruct f; try (apply Hthr; reflexivity).
  simpl. now rewrite (roof_rule_all_nan g Hne Hwf Hnan).
Qed.

Lemma constant_layer_size (f : factor) (s : nat * nat) :
  size (astype_float64 (constant_layer f s)) = (fst s * snd s)%nat.
Proof. unfold constant_layer. now destruct (is_threshold f). Qed.

Lemma raw_grid_well_formed (raw : list array3) (g : grid) :
  raw_grid raw = Ok g -> well_formed g.
Proof.
  unfold raw_grid. intros H. invert_binds.
  now destruct (channel0_well_formed _ _ H).
Qed.

(** On a grid with items every converter yields a layer of the grid's
    shape, whatever the values. *)
Lemma risk_of_nonempty (f : factor) (g : grid) :
  size g <> 0%nat -> well_formed g ->
  exists l,
    risk_of f g = Ok l
    /\ layer_shape l = shape g
    /\ well_formed (astype_float64 l).
Proof.
  intros Hne Hwf. destruct (is_threshold f) eqn:Hf.
  - rewrite (risk_of_threshold f g Hf). eexists. split; [reflexivity|].
    split; [reflexivity|]. unfold well_formed in *. simpl.
    now rewrite !length_map.
  - destruct f; try discriminate. simpl. unfold roof_rule, Np.max, Np.min.
    pose proof Hwf as Hwf'. unfold well_formed in Hwf'.
    destruct (data g) as [|x rest] eqn:E; [simpl in Hwf'; congruence|].
    rewrite !bind_unit. destruct (F64.gt _ _); rewrite bind_unit; eexists;
      (split; [reflexivity|]); (split; [reflexivity|]); unfold well_formed; simpl.
    + now rewrite length_map, E.
    + apply repeat_length.
Qed.

(** A block that does not resample: the layer comes from the raw grid and
    the reference shape is the grid's shape afterwards. *)
Lemma process_factor_unresampled
    (f : factor) (raw : list array3) (g : grid) (st : state) :
  raw_grid raw = Ok g ->
  size g <> 0%nat ->
  f = vegetation_health \/ reference_shape st = None
    \/ reference_shape st = Some (shape g) ->
  exists l,
    risk_of f g = Ok l
    /\ layer_shape l = shape g
    /\ well_formed (astype_float64 l)
    /\ process_factor zoom f (Some raw) st = Ok (store f g l (Some (shape g)) st).
Proof.
  intros Hraw Hne Href.
  pose proof (raw_grid_well_formed raw g Hraw) as Hwf.
  destruct (risk_of_nonempty f g Hne Hwf) as [l [Hrisk [Hshape Hwfl]]].
  exists l. split; [exact Hrisk|]. split; [exact Hshape|]. split; [exact Hwfl|].
  assert (Hstat : layer_statistics l = Ok tt).
  { apply nan_statistics_nonempty. unfold layer_shape, shape in Hshape.
    unfold size in *. injection Hshape as -> ->. exact Hne. }
  destruct (factor_eq_veg f) as [->|Hf].
  - unfold process_factor, process_vegetation.
    rewrite Hraw, bind_unit. rewrite (nan_statistics_nonempty g Hne), bind_unit.
    rewrite Hrisk, bind_unit. now rewrite Hstat.
  - assert (Hal : align zoom (reference_shape st) g = Ok (g, Some (shape g))).
    { destruct Href as [Hv|[Hn|Hs]]; [contradiction| |].
      - now rewrite Hn.
      - rewrite Hs. unfold align, shape_eqb. now rewrite !Nat.eqb_refl. }
    assert (Hpf : process_factor zoom f (Some raw) st
                  = process_aligned zoom f raw st) by now destruct f.
    rewrite Hpf. unfold process_aligned.
    rewrite Hraw, bind_unit. rewrite (nan_statistics_nonempty g Hne), bind_unit.
    rewrite Hal, bind_unit. simpl fst. simpl snd.
    rewrite Hrisk, bind_unit. now rewrite Hstat.
Qed.

Lemma shape_eqb_eq (s t : nat * nat) : shape_eqb s t = true -> s = t.
Proof.
  unfold shape_eqb. destruct s, t. simpl. intros H.
  apply andb_true_iff in H. destruct H as [H1 H2].
  apply Nat.eqb_eq in H1, H2. congruence.
Qed.

Lemma process_factor_keeps_unresampled
    (s : nat * nat) (f : factor) (d : raw_data) (st : state) :
  (fst s * snd s <> 0)%nat ->
  input_shaped s d = true ->
  unresampled s st ->
  exists st', process_factor zoom f d st = Ok st' /\ unresampled s st'.
Proof.
  intros Hs Hd [Hlayers [Href Hset]]. destruct d as [raw|].
  - simpl in Hd. destruct (raw_grid raw) as [g|e] eqn:Hraw; [|discriminate].
    apply shape_eqb_eq in Hd.
    assert (Hne : size g <> 0%nat).
    { unfold size. unfold shape in Hd. destruct s. simpl in Hs.
      injection Hd as -> ->. exact Hs. }
    destruct (process_factor_unresampled f raw g st Hraw Hne)
      as [l [_ [Hshape [Hwfl Hrun]]]].
    { right. rewrite Hd. exact Href. }
    eexists. split; [exact Hrun|]. simpl. rewrite Hd. split; [|split].
    + apply dict_set_Forall; [exact Hlayers|]. intros k. simpl.
      split; [congruence | exact Hwfl].
    + now right.
    + reflexivity.
  - exists st. split; [reflexivity|]. now split.
Qed.

Lemma run_steps_keeps_unresampled (s : nat * nat) (steps : list (factor * raw_data)) :
  (fst s * snd s <> 0)%nat ->
  forallb (fun p => input_shaped s (snd p)) steps = true ->
  forall st, unresampled s st ->
    exists st', run_steps zoom steps st = Ok st' /\ unresampled s st'.
Proof.
  intros Hs. induction steps as [|[f d] steps IH]; intros Hall st Hinv.
  - exists st. now split.
  - simpl in Hall. apply andb_true_iff in Hall. destruct Hall as [Hd Hall].
    destruct (process_factor_keeps_unresampled s f d st Hs Hd Hinv) as [st1 [H1 Hinv1]].
    destruct (IH Hall st1 Hinv1) as [st' [H' Hinv']].
    exists st'. split; [|exact Hinv']. simpl. now rewrite H1, bind_unit.
Qed.

Lemma composite_phase_returns (s : nat * nat) (st : state) :
  (fst s * snd s <> 0)%nat ->
  unresampled s st ->
  exists r, composite_phase st = Ok r.
Proof.
  intros Hs [Hlayers [_ Hset]]. unfold composite_phase.
  destruct (risk_layers st) as [|p rest] eqn:E; [now eexists|].
  rewrite (Hset ltac:(discriminate)). destruct s as [h w]. simpl in Hs.
  destruct (accumulate_same_shape (p :: rest) (zeros (h, w)) 0)
    as [total [Hacc [Hsh _]]].
  - exact Hs.
  - unfold well_formed, zeros, full, size. simpl. apply repeat_length.
  - exact Hlayers.
  - rewrite Hacc, bind_unit. cbv beta iota zeta. simpl fst. simpl snd.
    change (Nat.ltb 0 (S (List.length rest))) with true. cbv iota.
    rewrite nan_statistics_nonempty; [now eexists|].
    unfold size. simpl. unfold shape in Hsh. simpl in Hsh.
    injection Hsh as -> ->. exact Hs.
Qed.

(** When the present factors all bring grids of one shape with items,
    [process_risk_data] returns, whatever the values in the grids
    (NaN and infinities included). *)
Lemma same_shape_inputs_return
    (s : nat * nat) (veg water urban burn roof drainage : raw_data) :
  (fst s * snd s <> 0)%nat ->
  forallb (fun p => input_shaped s (snd p))
          (all_steps veg water urban burn roof drainage) = true ->
  exists r, process_risk_data zoom veg water urban burn roof drainage = Ok r.
Proof.
  intros Hs Hall.
  destruct (run_steps_keeps_unresampled s _ Hs Hall initial) as [st [Hrun Hinv]].
  - split; [constructor|]. split; [now left|]. intros H. now contradiction H.
  - unfold process_risk_data, factor_phase. rewrite Hrun, bind_unit.
    exact (composite_phase_returns s st Hs Hinv).
Qed.


End WithZoom.





End PipelineFacts.

(** ** The scaling stage of the colorizer *)

Module ImageFacts.

Import Image ContainerFacts ConverterFacts.
Open Scope float_scope.

Lemma SFcompare_antisym (a b : spec_float) :
  SFcompare b a = option_map CompOpp (SFcompare a b).
Proof.
  destruct a as [sa|sa| |sa ma ea], b as [sb|sb| |sb mb eb]; simpl;
    try reflexivity;
    try (destruct sa; reflexivity); try (destruct sb; reflexivity);
    try (destruct sa, sb; reflexivity).
  destruct sa, sb; simpl; try reflexivity.
  - rewrite (Z.compare_antisym ea eb). destruct (ea ?= eb)%Z; simpl; try reflexivity.
    rewrite (Pos.compare_cont_antisym ma mb Eq). simpl.
    now destruct (Pos.compare_cont Eq ma mb).
  - rewrite (Z.compare_antisym ea eb). destruct (ea ?= eb)%Z; simpl; try reflexivity.
    rewrite (Pos.compare_cont_antisym ma mb Eq). reflexivity.
Qed.

(** [lo < hi] excludes [hi == lo]. *)
Lemma ltb_ne (lo hi : float) : (lo <? hi) = true -> F64.ne hi lo = true.
Proof.
  unfold F64.ne. rewrite ltb_spec, eqb_spec. unfold SFltb, SFeqb.
  rewrite (SFcompare_antisym (Prim2SF lo) (Prim2SF hi)).
  destruct (SFcompare (Prim2SF lo) (Prim2SF hi)) as [[| |]|]; simpl; congruence.
Qed.

Lemma eqb_ne (lo hi : float) : (hi =? lo) = true -> F64.ne hi lo = false.
Proof. unfold F64.ne. now intros ->. Qed.

Lemma nanmin_nonempty (a : grid) :
  data a <> [] -> exists v, nanmin a = Ok v.
Proof.
  unfold nanmin. destruct (data a) as [|x rest]; [contradiction|]. intros _.
  destruct (filter _ _); eauto.
Qed.

Lemma nanmax_nonempty (a : grid) :
  data a <> [] -> exists v, nanmax a = Ok v.
Proof.
  unfold nanmax. destruct (data a) as [|x rest]; [contradiction|]. intros _.
  destruct (filter _ _); eauto.
Qed.

Lemma effective_ok (given : option float) (computed : result float) :
  (exists v, computed = Ok v) -> exists v, effective given computed = Ok v.
Proof. destruct given; simpl; eauto. Qed.



End ImageFacts.

(* ================================================================== *)
(** * Further properties of the code *)
(* ================================================================== *)

(** ** Ordering of values that are not NaN *)

Module OrderFacts.

Import ImageFacts.
Open Scope float_scope.

Lemma not_nan_spec (x : float) : is_nan x = false -> Prim2SF x <> S754_nan.
Proof.
  intros H. unfold Prim2SF. rewrite H.
  destruct (is_zero x); [discriminate|].
  destruct (is_infinity x); [discriminate|].
  destruct (Z.frexp x) as [r e].
  destruct (shr_fexp _ _ _ _ _) as [shr e'].
  destruct (shr_m shr); discriminate.
Qed.

Lemma SFcompare_defined (a b : spec_float) :
  a <> S754_nan -> b <> S754_nan -> exists c, SFcompare a b = Some c.
Proof.
  intros Ha Hb. destruct a, b; simpl; eauto; contradiction.
Qed.

(** Without NaN, "not [x < c]" is "[c <= x]". *)
Lemma leb_of_not_ltb (x c : float) :
  is_nan x = false -> is_nan c = false -> (x <? c) = false -> (c <=? x) = true.
Proof.
  intros Hx Hc. rewrite ltb_spec, leb_spec. unfold SFltb, SFleb.
  rewrite (SFcompare_antisym (Prim2SF x) (Prim2SF c)).
  destruct (SFcompare_defined _ _ (not_nan_spec x Hx) (not_nan_spec c Hc))
    as [[| |] ->]; simpl; congruence.
Qed.

(** Without NaN, "not [c <= x]" is "[x < c]". *)
Lemma ltb_of_not_leb (x c : float) :
  is_nan x = false -> is_nan c = false -> (c <=? x) = false -> (x <? c) = true.
Proof.
  intros Hx Hc. rewrite ltb_spec, leb_spec. unfold SFltb, SFleb.
  rewrite (SFcompare_antisym (Prim2SF x) (Prim2SF c)).
  destruct (SFcompare_defined _ _ (not_nan_spec x Hx) (not_nan_spec c Hc))
    as [[| |] ->]; simpl; congruence.
Qed.

(** A comparison that holds has no NaN operand. *)
Lemma leb_not_nan (x y : float) :
  (x <=? y) = true -> is_nan x = false /\ is_nan y = false.
Proof.
  rewrite leb_spec. unfold SFleb. intros H.
  split.
  - destruct (is_nan x) eqn:E; [|reflexivity].
    rewrite (F64Facts.nan_spec x E) in H. discriminate.
  - destruct (is_nan y) eqn:E; [|reflexivity].
    rewrite (F64Facts.nan_spec y E), F64Facts.SFcompare_nan_r in H. discriminate.
Qed.

End OrderFacts.

(** ** What a run returns *)

Module ReturnFacts.

Import Risk Run Observe ContainerFacts F64Facts ConverterFacts CompositeFacts.
Import PipelineFacts OrderFacts.
Open Scope float_scope.

Lemma clip_in_risk_range (x : float) : in_risk_range (F64.clip x 1 10) = true.
Proof.
  unfold in_risk_range, F64.clip, F64.maximum, F64.minimum, F64.isnan.
  destruct (is_nan x) eqn:Hn.
  - now rewrite Hn, Hn.
  - change (is_nan 1) with false. change (is_nan 10) with false. cbv iota.
    destruct (x <? 1) eqn:H1; [reflexivity|]. rewrite Hn.
    destruct (10 <? x) eqn:H10; [reflexivity|]. rewrite Hn. simpl.
    rewrite (leb_of_not_ltb x 1 Hn eq_refl H1).
    now rewrite (leb_of_not_ltb 10 x eq_refl Hn H10).
Qed.

Lemma composite_phase_in_range (st : state) (r : returned) :
  composite_phase st = Ok r ->
  forallb in_risk_range (data (composite_of r)) = true.
Proof.
  unfold composite_phase. destruct (risk_layers st) as [|p rest].
  - intros H. injection H as <-.
    cbv beta iota delta [composite_of full data]. apply forallb_forall.
    intros x Hx. apply repeat_spec in Hx. now subst x.
  - destruct (reference_shape st) as [ref|]; [|discriminate].
    intros H. invert_binds. injection H as <-. simpl.
    apply forallb_forall. intros x Hx. apply in_map_iff in Hx.
    destruct Hx as [y [<- _]]. apply clip_in_risk_range.
Qed.

(** Whatever the inputs and whatever [zoom] does, every pixel of a returned
    composite grid is NaN or lies between 1 and 10. *)
Theorem composite_pixels_in_range
    (zoom : grid -> float * float -> grid)
    (veg water urban burn roof drainage : raw_data) (r : returned) :
  process_risk_data zoom veg water urban burn roof drainage = Ok r ->
  forallb in_risk_range (data (composite_of r)) = true.
Proof.
  unfold process_risk_data. intros H. invert_binds.
  now apply composite_phase_in_range with (st := a).
Qed.

Lemma composite_pixels_in_range_witness :
  exists r,
    process_risk_data nearest_zoom None None None None roof_with_infinity None = Ok r
    /\ forallb in_risk_range (data (composite_of r)) = true.
Proof.
  eexists. split; [reflexivity|].
  apply (composite_pixels_in_range nearest_zoom
           None None None None roof_with_infinity None).
  reflexivity.
Defined.

(** *** Inputs without a pixel *)

Lemma process_factor_unusable
    (zoom : grid -> float * float -> grid) (f : factor) (d : raw_data) (st : state) :
  unusable d = true -> raises (process_factor zoom f d st) = true.
Proof.
  destruct d as [raw|]; [|discriminate]. simpl.
  destruct (raw_grid raw) as [g|e] eqn:Hraw.
  - intros Hsize.
    assert (Hstat : nan_statistics g = Raise ValueError).
    { unfold nan_statistics. now rewrite Hsize. }
    destruct f; unfold process_vegetation, process_aligned;
      rewrite Hraw, bind_unit, Hstat; reflexivity.
  - intros _.
    destruct f; unfold process_vegetation, process_aligned;
      rewrite Hraw; reflexivity.
Qed.

Lemma run_steps_unusable
    (zoom : grid -> float * float -> grid) (steps : list (factor * raw_data)) :
  forall st,
    existsb (fun p => unusable (snd p)) steps = true ->
    raises (run_steps zoom steps st) = true.
Proof.
  induction steps as [|[f d] steps IH]; intros st H; [discriminate|].
  simpl in H. simpl run_steps.
  destruct (unusable d) eqn:Hd.
  - pose proof (process_factor_unusable zoom f d st Hd) as Hr.
    destruct (process_factor zoom f d st); [discriminate|reflexivity].
  - simpl in H. destruct (process_factor zoom f d st) as [st'|e]; [|reflexivity].
    rewrite bind_unit. now apply IH.
Qed.

(** When a present factor brings no array, an array without channels, or
    a grid without pixels, the function raises and returns nothing,
    whatever the other factors hold. *)
Theorem unusable_input_raises
    (zoom : grid -> float * float -> grid)
    (veg water urban burn roof drainage : raw_data) :
  existsb (fun p => unusable (snd p))
          (all_steps veg water urban burn roof drainage) = true ->
  raises (process_risk_data zoom veg water urban burn roof drainage) = true.
Proof.
  intros H. unfold process_risk_data, factor_phase.
  pose proof (run_steps_unusable zoom _ initial H) as Hr.
  destruct (run_steps zoom _ initial); [discriminate|reflexivity].
Qed.

Lemma unusable_input_raises_witness :
  raises (process_risk_data nearest_zoom ndvi_1x2 None None None (Some []) None) = true.
Proof.
  apply (unusable_input_raises nearest_zoom ndvi_1x2 None None None (Some []) None).
  reflexivity.
Defined.

End ReturnFacts.

(** ** The dicts of a run *)

Module DictFacts.

Import Risk Run Observe ContainerFacts ConverterFacts PipelineFacts.
Import Sanitizer SanitizerFacts.
Open Scope float_scope.
Open Scope list_scope.

Lemma dict_set_fresh {V : Type} (d : list (string * V)) (k : string) (v : V) :
  ~ In k (keys d) -> dict_set d k v = d ++ [(k, v)].
Proof.
  induction d as [|[k' w] d IH]; simpl; intros H; [reflexivity|].
  destruct (String.eqb_spec k' k) as [E|E].
  - exfalso. apply H. now left.
  - f_equal. apply IH. intros Hin. apply H. now right.
Qed.

Lemma keys_app {V : Type} (d e : list (string * V)) :
  keys (d ++ e) = keys d ++ keys e.
Proof. apply map_app. Qed.

Lemma factor_name_not_composite (f : factor) : factor_name f <> "composite_risk".
Proof. destruct f; discriminate. Qed.

Lemma present_names_are_factors (steps : list (factor * raw_data)) :
  ~ In "composite_risk" (present_names steps).
Proof.
  unfold present_names. intros H. apply in_map_iff in H.
  destruct H as [[f d] [E _]]. now apply (factor_name_not_composite f).
Qed.

Section WithZoom.

Variable zoom : grid -> float * float -> grid.

(** A block adds the key of its factor to both dicts when the input is
    present, and nothing otherwise. *)
Lemma process_factor_keys (f : factor) (d : raw_data) (st st' : state) :
  process_factor zoom f d st = Ok st' ->
  keys (index_values st) = keys (risk_layers st) ->
  ~ In (factor_name f) (keys (risk_layers st)) ->
  keys (risk_layers st')
  = keys (risk_layers st) ++ (if present d then [factor_name f] else [])
  /\ keys (index_values st') = keys (risk_layers st').
Proof.
  intros H Hsame Hfresh. destruct d as [raw|].
  - apply process_factor_inv in H.
    destruct H as [g [g' [l [ref' [_ [_ [_ [_ [-> _]]]]]]]]]. simpl.
    rewrite !dict_set_fresh by (rewrite ?Hsame; exact Hfresh).
    rewrite !keys_app. simpl. now rewrite Hsame.
  - simpl in H. injection H as <-. simpl. now rewrite app_nil_r.
Qed.

Lemma run_steps_keys (steps : list (factor * raw_data)) :
  forall st st',
    run_steps zoom steps st = Ok st' ->
    keys (index_values st) = keys (risk_layers st) ->
    NoDup (keys (risk_layers st) ++ map (fun p => factor_name (fst p)) steps) ->
    keys (risk_layers st') = keys (risk_layers st) ++ present_names steps
    /\ keys (index_values st') = keys (risk_layers st').
Proof.
  induction steps as [|[f d] steps IH]; intros st st' H Hsame Hnd.
  - simpl in H. injection H as <-. unfold present_names. simpl.
    now rewrite app_nil_r.
  - simpl in H. invert_binds. simpl in Hnd.
    assert (Hfresh : ~ In (factor_name f) (keys (risk_layers st))).
    { intros Hin. apply NoDup_remove_2 in Hnd. apply Hnd.
      apply in_or_app. now left. }
    destruct (process_factor_keys f d st a Ha Hsame Hfresh) as [Hk1 Hs1].
    destruct (IH a st' H Hs1) as [Hk Hs].
    + rewrite Hk1. destruct d as [raw|]; simpl.
      * rewrite <- app_assoc. exact Hnd.
      * rewrite app_nil_r. now apply NoDup_remove_1 in Hnd.
    + split; [|exact Hs]. rewrite Hk, Hk1. unfold present_names. simpl.
      destruct d as [raw|]; simpl; [now rewrite <- app_assoc | now rewrite app_nil_r].
Qed.

Lemma risk_values_keys (layers : list (string * layer)) :
  forall acc : list (string * pyobj),
    NoDup (keys acc ++ keys layers) ->
    keys (fold_left
            (fun acc p =>
               dict_set acc (fst p) (PyFloat (nanmean (astype_float64 (snd p)))))
            layers acc)
    = keys acc ++ keys layers.
Proof.
  induction layers as [|[k l] layers IH]; intros acc Hnd; simpl.
  - now rewrite app_nil_r.
  - simpl in Hnd. rewrite IH.
    + rewrite dict_set_fresh.
      * rewrite keys_app. simpl. now rewrite <- app_assoc.
      * intros Hin. apply NoDup_remove_2 in Hnd. apply Hnd.
        apply in_or_app. now left.
    + rewrite dict_set_fresh.
      * rewrite keys_app. simpl. rewrite <- app_assoc. exact Hnd.
      * intros Hin. apply NoDup_remove_2 in Hnd. apply Hnd.
        apply in_or_app. now left.
Qed.

Lemma factor_names_distinct (veg water urban burn roof drainage : raw_data) :
  NoDup (map (fun p => factor_name (fst p))
             (all_steps veg water urban burn roof drainage)).
Proof.
  simpl. repeat constructor; simpl; intuition discriminate.
Qed.

(** The normal exit returns one risk value per present factor, under the
    factor's name and in processing order, and nothing for an absent
    factor; the index values have the same keys, followed by
    ["composite_risk"]. *)
Theorem returned_keys
    (veg water urban burn roof drainage : raw_data)
    (c : grid) (iv rv : pyobj) :
  process_risk_data zoom veg water urban burn roof drainage = Ok (Ret3 c iv rv) ->
  exists ivd rvd,
    iv = PyDict ivd
    /\ rv = PyDict rvd
    /\ keys rvd = present_names (all_steps veg water urban burn roof drainage)
    /\ keys ivd
       = present_names (all_steps veg water urban burn roof drainage)
         ++ ["composite_risk"].
Proof.
  unfold process_risk_data, factor_phase. intros H. invert_binds.
  destruct (run_steps_keys _ _ _ Ha eq_refl) as [Hk Hs].
  { simpl. apply (factor_names_distinct veg water urban burn roof drainage). }
  simpl in Hk. unfold composite_phase in H.
  destruct (risk_layers a) as [|p rest] eqn:E; [discriminate|].
  destruct (reference_shape a) as [ref|]; [|discriminate].
  invert_binds. injection H as <- <- <-.
  eexists. eexists. split; [reflexivity|]. split; [reflexivity|]. split.
  - unfold risk_values_of. rewrite risk_values_keys.
    + exact Hk.
    + change (keys (@nil (string * pyobj)) ++ keys (p :: rest)) with (keys (p :: rest)).
      rewrite Hk. pose proof (factor_names_distinct veg water urban burn roof drainage) as Hnd.
      unfold present_names. clear -Hnd.
      induction (all_steps veg water urban burn roof drainage) as [|[f d] l IH];
        simpl; [constructor|].
      simpl in Hnd. inversion Hnd as [|x xs Hx Hxs]; subst.
      destruct (present d); simpl; [|now apply IH].
      constructor; [|now apply IH].
      intros Hin. apply Hx. apply in_map_iff in Hin.
      destruct Hin as [[f' d'] [E' Hin']]. apply filter_In in Hin'.
      apply in_map_iff. exists (f', d'). split; [exact E' | apply Hin'].
  - rewrite dict_set_fresh.
    + rewrite keys_app. simpl. now rewrite Hs, Hk.
    + rewrite Hs, Hk. apply present_names_are_factors.
Qed.

(** *** What the sanitizer receives *)

Lemma all_regular_forallb (d : list (string * pyobj)) :
  all_regular d -> regular (PyDict d) = true.
Proof.
  intros H. simpl. apply forallb_forall. intros p Hp.
  unfold all_regular in H. rewrite Forall_forall in H. now apply H.
Qed.

Lemma process_factor_regular (f : factor) (d : raw_data) (st st' : state) :
  process_factor zoom f d st = Ok st' ->
  all_regular (index_values st) -> all_regular (index_values st').
Proof.
  intros H Hreg. destruct d as [raw|].
  - apply process_factor_inv in H.
    destruct H as [g [g' [l [ref' [_ [_ [_ [_ [-> _]]]]]]]]]. simpl.
    apply dict_set_Forall; [exact Hreg | reflexivity].
  - simpl in H. now injection H as <-.
Qed.

Lemma run_steps_regular (steps : list (factor * raw_data)) :
  forall st st',
    run_steps zoom steps st = Ok st' ->
    all_regular (index_values st) -> all_regular (index_values st').
Proof.
  induction steps as [|[f d] steps IH]; intros st st' H Hreg.
  - simpl in H. now injection H as <-.
  - simpl in H. invert_binds.
    apply (IH a st' H). now apply (process_factor_regular f d st a).
Qed.

Lemma risk_values_regular (layers : list (string * layer)) :
  forall acc, all_regular acc ->
    all_regular
      (fold_left
         (fun acc p =>
            dict_set acc (fst p) (PyFloat (nanmean (astype_float64 (snd p)))))
         layers acc).
Proof.
  induction layers as [|p layers IH]; intros acc Hreg; simpl; [exact Hreg|].
  apply IH. apply dict_set_Forall; [exact Hreg | reflexivity].
Qed.

(** What [analyze] and [analyze_trends] send out: the dicts that
    [process_risk_data] returns hold floats and strings only, so after
    [sanitize_for_json] no NaN and no infinity is left in them, whatever
    the satellite data held. *)
Theorem sanitized_outputs_are_safe
    (veg water urban burn roof drainage : raw_data) (r : returned) :
  process_risk_data zoom veg water urban burn roof drainage = Ok r ->
  forallb (fun d => json_safe (sanitize_for_json d)) (dicts_of r) = true.
Proof.
  unfold process_risk_data, factor_phase. intros H. invert_binds.
  pose proof (run_steps_regular _ _ _ Ha (Forall_nil _)) as Hreg.
  unfold composite_phase in H.
  destruct (risk_layers a) as [|p rest] eqn:E.
  - injection H as <-. reflexivity.
  - destruct (reference_shape a) as [ref|]; [|discriminate].
    invert_binds. injection H as <-. cbn [dicts_of forallb].
    rewrite sanitize_safe_on_regular.
    + rewrite sanitize_safe_on_regular; [reflexivity|].
      apply all_regular_forallb. unfold risk_values_of.
      apply risk_values_regular. constructor.
    + apply all_regular_forallb.
      apply dict_set_Forall; [exact Hreg | reflexivity].
Qed.

End WithZoom.

Lemma returned_keys_witness :
  exists ivd rvd,
    keys rvd = ["vegetation_health"; "urban_areas"]
    /\ keys ivd = ["vegetation_health"; "urban_areas"; "composite_risk"]
    /\ exists c,
         process_risk_data nearest_zoom ndvi_1x2 None ndbi_2x2 None None None
         = Ok (Ret3 c (PyDict ivd) (PyDict rvd)).
Proof.
  destruct (process_risk_data nearest_zoom ndvi_1x2 None ndbi_2x2 None None None)
    as [[c iv|c iv rv]|e] eqn:E; try discriminate.
  destruct (returned_keys nearest_zoom ndvi_1x2 None ndbi_2x2 None None None c iv rv E)
    as [ivd [rvd [-> [-> [Hr Hi]]]]].
  exists ivd, rvd. split; [exact Hr|]. split; [exact Hi|]. now exists c.
Defined.

Lemma sanitized_outputs_are_safe_witness :
  exists r,
    process_risk_data nearest_zoom nan_pixel None None None roof_with_infinity None = Ok r
    /\ forallb (fun d => json_safe (sanitize_for_json d)) (dicts_of r) = true.
Proof.
  eexists. split; [reflexivity|].
  apply (sanitized_outputs_are_safe nearest_zoom
           nan_pixel None None None roof_with_infinity None).
  reflexivity.
Defined.

End DictFacts.

(** ** The validity mask *)

Module MaskFacts.

Import Risk Run Observe ContainerFacts ConverterFacts.
Open Scope float_scope.

Lemma channel0_same (a b : array3) :
  same_channel0 a b -> channel0 a = channel0 b.
Proof.
  intros [H0 [H1 [Ha [Hb Hpix]]]]. unfold channel0.
  destruct (dim2 a) as [|ca] eqn:Ea; [contradiction|].
  destruct (dim2 b) as [|cb] eqn:Eb; [contradiction|].
  rewrite <- H0, <- H1. do 2 f_equal.
  apply map_ext_in. intros k Hk. apply in_seq in Hk.
  apply Hpix. lia.
Qed.

Lemma raw_grid_same (d e : raw_data) :
  same_input d e ->
  match d, e with
  | Some x, Some y => raw_grid x = raw_grid y
  | None, None => True
  | _, _ => False
  end.
Proof.
  destruct d as [[|a x]|], e as [[|b y]|]; simpl; try tauto.
  intros H. unfold raw_grid, first_item. rewrite !bind_unit.
  now apply channel0_same.
Qed.

Lemma process_factor_same
    (zoom : grid -> float * float -> grid) (f : factor) (d e : raw_data) (st : state) :
  same_input d e -> process_factor zoom f d st = process_factor zoom f e st.
Proof.
  intros H. apply raw_grid_same in H.
  destruct d as [x|], e as [y|]; try contradiction; [|reflexivity].
  destruct f; simpl; unfold process_vegetation, process_aligned; now rewrite H.
Qed.

(** [process_risk_data] reads channel 0 only: inputs that agree there give
    the same result, whatever their other channels (the validity mask of
    channel 1 included) hold. *)
Theorem mask_is_ignored
    (zoom : grid -> float * float -> grid)
    (veg water urban burn roof drainage : raw_data)
    (veg' water' urban' burn' roof' drainage' : raw_data) :
  same_input veg veg' ->
  same_input water water' ->
  same_input urban urban' ->
  same_input burn burn' ->
  same_input roof roof' ->
  same_input drainage drainage' ->
  process_risk_data zoom veg water urban burn roof drainage
  = process_risk_data zoom veg' water' urban' burn' roof' drainage'.
Proof.
  intros Hv Hw Hu Hb Hr Hd.
  unfold process_risk_data, factor_phase, all_steps. f_equal.
  cbn [run_steps].
  rewrite (process_factor_same zoom vegetation_health veg veg' initial Hv).
  destruct (process_factor zoom vegetation_health veg' initial) as [s1|]; [|reflexivity].
  rewrite !bind_unit.
  rewrite (process_factor_same zoom water_stress water water' s1 Hw).
  destruct (process_factor zoom water_stress water' s1) as [s2|]; [|reflexivity].
  rewrite !bind_unit.
  rewrite (process_factor_same zoom urban_areas urban urban' s2 Hu).
  destruct (process_factor zoom urban_areas urban' s2) as [s3|]; [|reflexivity].
  rewrite !bind_unit.
  rewrite (process_factor_same zoom burn_areas burn burn' s3 Hb).
  destruct (process_factor zoom burn_areas burn' s3) as [s4|]; [|reflexivity].
  rewrite !bind_unit.
  rewrite (process_factor_same zoom roof_risk roof roof' s4 Hr).
  destruct (process_factor zoom roof_risk roof' s4) as [s5|]; [|reflexivity].
  rewrite !bind_unit.
  now rewrite (process_factor_same zoom drainage_risk drainage drainage' s5 Hd).
Qed.

Lemma mask_is_ignored_witness :
  process_risk_data nearest_zoom (ndvi_masked 1) None None None None None
  = process_risk_data nearest_zoom (ndvi_masked 0) None None None None None.
Proof.
  apply (mask_is_ignored nearest_zoom); try exact I.
  unfold ndvi_masked, same_input, same_channel0. cbn [dim0 dim1 dim2 data3].
  split; [reflexivity|]. split; [reflexivity|].
  split; [discriminate|]. split; [discriminate|].
  intros k Hk. destruct k as [|[|k]]; [reflexivity | reflexivity | simpl in Hk; lia].
Defined.

End MaskFacts.

(** ** More on the sanitizer and on the scaling stage *)

Module CleaningFacts.

Import Sanitizer Image Observe.
Open Scope float_scope.

Lemma dict_get_map_values {V W : Type} (h : V -> W) (d : list (string * V)) (k : string) :
  dict_get (map (fun p => (fst p, h (snd p))) d) k = option_map h (dict_get d k).
Proof.
  induction d as [|[k' v] d IH]; simpl; [reflexivity|].
  destruct (String.eqb k' k); [reflexivity | exact IH].
Qed.

(** Sanitizing a dict keeps its keys and their order, and the value found
    under a key afterwards is the sanitized value found under it before:
    no entry is added, dropped or moved. *)
Theorem sanitize_keeps_entries (kv : list (string * pyobj)) :
  exists kv',
    sanitize_for_json (PyDict kv) = PyDict kv'
    /\ keys kv' = keys kv
    /\ forall k, dict_get kv' k = option_map sanitize_for_json (dict_get kv k).
Proof.
  eexists. split; [reflexivity|]. split.
  - unfold keys. rewrite map_map. apply map_ext. now intros [k v].
  - intros k. apply dict_get_map_values.
Qed.

Lemma nan_to_num_idempotent (x : float) :
  nan_to_num (nan_to_num x) = nan_to_num x.
Proof.
  unfold nan_to_num at 2 3.
  destruct (F64.isnan x) eqn:Hn; [reflexivity|].
  destruct (x =? infinity) eqn:Hp; [reflexivity|].
  destruct (x =? neg_infinity) eqn:Hm; [reflexivity|].
  unfold nan_to_num. now rewrite Hn, Hp, Hm.
Qed.

(** [array_to_image] cannot tell a NaN or a negative infinity from 0.0, nor
    a positive infinity from 255.0: replacing them in the input changes
    nothing, in either mode and for any bounds, given or computed. *)
Theorem non_finite_pixels_are_replaced
    (array : grid) (normalize : bool) (min_val max_val : option float) :
  array_to_image_intensity (map2d nan_to_num array) normalize min_val max_val
  = array_to_image_intensity array normalize min_val max_val.
Proof.
  unfold array_to_image_intensity.
  assert (E : map2d nan_to_num (map2d nan_to_num array) = map2d nan_to_num array).
  { unfold map2d. simpl. f_equal. rewrite map_map. apply map_ext.
    apply nan_to_num_idempotent. }
  rewrite E.
  assert (S : nan_statistics (map2d nan_to_num array) = nan_statistics array)
    by reflexivity.
  now rewrite S.
Qed.

End CleaningFacts.

(** ** The colour schemes *)

Module ColourFacts.

Import Image Colour ContainerFacts ConverterFacts.

Lemma for_all_intensities (P : Z -> bool) :
  forallb P intensities = true ->
  forall v, (0 <= v <= 255)%Z -> P v = true.
Proof.
  intros H v Hv. rewrite forallb_forall in H. apply H.
  unfold intensities. apply in_map_iff. exists (Z.to_nat v). split.
  - apply Z2Nat.id. lia.
  - apply in_seq. lia.
Qed.

Lemma rgb_eqb_eq (c d : rgb) : rgb_eqb c d = true -> c = d.
Proof.
  destruct c as [[r g] b], d as [[r' g'] b']. simpl. intros H.
  apply andb_true_iff in H. destruct H as [H Hb].
  apply andb_true_iff in H. destruct H as [Hr Hg].
  apply Z.eqb_eq in Hr, Hg, Hb. congruence.
Qed.

(** In the [water_blue] scheme the doubling and the tripling are done in
    [uint8] and wrap around before [np.clip] sees them, so the clip never
    changes a value: blue is [2v mod 256] and red and green are
    [255 - (3v mod 256)].  From intensity 128 on, blue is [2v - 256]
    instead of saturating at 255. *)
Theorem water_blue_wraps_around (v : Z) :
  (0 <= v <= 255)%Z ->
  scheme_pixel "water_blue" v
  = (255 - (3 * v) mod 256, 255 - (3 * v) mod 256, (2 * v) mod 256)%Z
  /\ ((128 <=? v)%Z = true ->
      scheme_pixel "water_blue" v
      = (255 - (3 * v) mod 256, 255 - (3 * v) mod 256, 2 * v - 256)%Z).
Proof.
  intros Hv. split.
  - apply rgb_eqb_eq. revert v Hv.
    apply (for_all_intensities
             (fun v => rgb_eqb (scheme_pixel "water_blue" v)
                         (255 - (3 * v) mod 256, 255 - (3 * v) mod 256,
                          (2 * v) mod 256)%Z)).
    vm_compute. reflexivity.
  - intros H. apply rgb_eqb_eq.
    pose proof (for_all_intensities
                  (fun v => implb (128 <=? v)%Z
                              (rgb_eqb (scheme_pixel "water_blue" v)
                                 (255 - (3 * v) mod 256, 255 - (3 * v) mod 256,
                                  2 * v - 256)%Z))
                  ltac:(vm_compute; reflexivity) v Hv) as Hi.
    cbv beta in Hi. rewrite H in Hi. exact Hi.
Qed.

Lemma water_blue_wraps_around_witness :
  scheme_pixel "water_blue" 200 = (167, 167, 144)%Z
  /\ ((128 <=? 200)%Z = true -> scheme_pixel "water_blue" 200 = (167, 167, 144)%Z).
Proof.
  apply (water_blue_wraps_around 200). lia.
Defined.

(** In the [heat] and [blue_to_brown] schemes no [uint8] operation
    overflows: for every intensity the three channels are the values of
    the formulas computed in unbounded integers, and exactly one of the
    three intensity ranges supplies them. *)
Theorem heat_and_brown_never_overflow (v : Z) :
  (0 <= v <= 255)%Z ->
  scheme_pixel "heat" v = heat_formula v
  /\ scheme_pixel "blue_to_brown" v = blue_to_brown_formula v.
Proof.
  intros Hv. split; apply rgb_eqb_eq; revert v Hv.
  - apply (for_all_intensities
             (fun v => rgb_eqb (scheme_pixel "heat" v) (heat_formula v))).
    vm_compute. reflexivity.
  - apply (for_all_intensities
             (fun v => rgb_eqb (scheme_pixel "blue_to_brown" v)
                         (blue_to_brown_formula v))).
    vm_compute. reflexivity.
Qed.

Lemma heat_and_brown_never_overflow_witness :
  scheme_pixel "heat" 100 = (45, 0, 210)%Z
  /\ scheme_pixel "blue_to_brown" 100 = (50, 133, 100)%Z.
Proof.
  apply (heat_and_brown_never_overflow 100). lia.
Defined.

(** In the [purple] scheme blue is [min(255, floor(1.3 v))], which is 255
    from intensity 197 on, and red is [floor(0.7 v)] except at the
    intensities 90, 170 and 180, where the binary64 product lies just
    below the integer and the cast yields one less. *)
Theorem purple_channels (v : Z) :
  (0 <= v <= 255)%Z ->
  scheme_pixel "purple" v
  = (if ((v =? 90) || (v =? 170) || (v =? 180))%Z
     then 7 * v / 10 - 1 else 7 * v / 10,
     0,
     Z.min 255 (13 * v / 10))%Z.
Proof.
  intros Hv. apply rgb_eqb_eq. revert v Hv.
  apply (for_all_intensities
           (fun v => rgb_eqb (scheme_pixel "purple" v)
                       (if ((v =? 90) || (v =? 170) || (v =? 180))%Z
                        then 7 * v / 10 - 1 else 7 * v / 10,
                        0,
                        Z.min 255 (13 * v / 10))%Z)).
  vm_compute. reflexivity.
Qed.

Lemma purple_channels_witness :
  scheme_pixel "purple" 90 = (62, 0, 117)%Z.
Proof.
  apply (purple_channels 90). lia.
Defined.

(** *** The risk gradient *)

Lemma astype_uint8_range (x : float) : (0 <= astype_uint8 x <= 255)%Z.
Proof.
  unfold astype_uint8. destruct (F64.trunc x) as [z|]; [|lia].
  pose proof (Z.mod_pos_bound z 256). lia.
Qed.

(** For every grid with items and every [scale_max], [risk_score_to_image]
    colours each pixel with blue 0 and with red and green adding up to
    255; the raster has the shape of the grid. *)
Theorem risk_gradient_is_red_green (risk_score : grid) (scale_max : float) :
  size risk_score <> 0%nat ->
  exists colormap,
    risk_score_to_image_colormap risk_score scale_max = Ok colormap
    /\ shape colormap = shape risk_score
    /\ Forall (fun c : rgb =>
                 match c with
                 | (r, g, b) => (0 <= r <= 255 /\ r + g = 255 /\ b = 0)%Z
                 end)
              (data colormap).
Proof.
  intros Hne. unfold risk_score_to_image_colormap.
  rewrite (nan_statistics_nonempty _ Hne), bind_unit.
  eexists. split; [reflexivity|]. split; [reflexivity|].
  simpl. apply Forall_forall. intros c Hc. apply in_map_iff in Hc.
  destruct Hc as [x [<- _]]. unfold risk_pixel, u8.
  pose proof (astype_uint8_range
                (F64.clip (risk_nan_to_num scale_max x / scale_max) 0 1 * 255)%float)
    as Hr.
  fold (risk_255 scale_max x) in Hr. split; [exact Hr|]. split; [|reflexivity].
  rewrite Z.mod_small; lia.
Qed.

Lemma risk_gradient_is_red_green_witness :
  exists colormap,
    risk_score_to_image_colormap (mk_array2 1 2 [1; nan]%float) 10 = Ok colormap
    /\ shape colormap = (1, 2)%nat
    /\ Forall (fun c : rgb =>
                 match c with
                 | (r, g, b) => (0 <= r <= 255 /\ r + g = 255 /\ b = 0)%Z
                 end)
              (data colormap).
Proof.
  apply (risk_gradient_is_red_green (mk_array2 1 2 [1; nan]%float) 10).
  cbv. lia.
Defined.

(** With the scale maximum 10 that both routes pass, a NaN pixel of the
    composite is drawn in the middle of the gradient, [(127, 128, 0)],
    whatever the rest of the grid holds. *)
Theorem nan_risk_is_drawn_mid_scale (risk_score : grid) (k : nat) :
  well_formed risk_score ->
  (k < List.length (data risk_score))%nat ->
  F64.isnan (nth k (data risk_score) nan) = true ->
  exists colormap,
    risk_score_to_image_colormap risk_score 10 = Ok colormap
    /\ nth k (data colormap) (0, 0, 0)%Z = (127, 128, 0)%Z.
Proof.
  intros Hwf Hk Hnan. unfold risk_score_to_image_colormap.
  rewrite nan_statistics_nonempty, bind_unit.
  - eexists. split; [reflexivity|]. simpl.
    rewrite (nth_map_in _ _ _ nan) by exact Hk.
    unfold risk_pixel, risk_255, risk_nan_to_num. rewrite Hnan. reflexivity.
  - unfold well_formed in Hwf. lia.
Qed.

Lemma nan_risk_is_drawn_mid_scale_witness :
  exists colormap,
    risk_score_to_image_colormap (mk_array2 1 2 [2; nan]%float) 10 = Ok colormap
    /\ nth 1 (data colormap) (0, 0, 0)%Z = (127, 128, 0)%Z.
Proof.
  apply (nan_risk_is_drawn_mid_scale (mk_array2 1 2 [2; nan]%float) 1).
  - reflexivity.
  - simpl. lia.
  - reflexivity.
Defined.

(** In the factor images that are normalised over the range (-1, 1), a
    pixel that is NaN gets the intensity 127 of the index value 0.0 and is
    coloured accordingly, whatever the rest of the grid holds. *)
Theorem nan_pixel_of_factor_image
    (factor_name color : string) (factor_img : grid) (k : nat) :
  visualization_config factor_name = Some (color, Some (-1, 1)%float) ->
  well_formed factor_img ->
  (k < List.length (data factor_img))%nat ->
  F64.isnan (nth k (data factor_img) nan) = true ->
  exists colormap,
    factor_image factor_name factor_img = Some (Ok colormap)
    /\ nth k (data colormap) (0, 0, 0)%Z = scheme_pixel color 127.
Proof.
  intros Hcfg Hwf Hk Hnan. unfold factor_image. rewrite Hcfg.
  unfold array_to_image_colormap, array_to_image_intensity.
  rewrite nan_statistics_nonempty, bind_unit by (unfold well_formed in Hwf; lia).
  simpl effective. rewrite !bind_unit.
  eexists. split; [reflexivity|]. simpl.
  rewrite !map_map. rewrite (nth_map_in _ _ _ nan) by exact Hk.
  f_equal. unfold nan_to_num. rewrite Hnan. reflexivity.
Qed.

Lemma nan_pixel_of_factor_image_witness :
  exists colormap,
    factor_image "vegetation_health" (mk_array2 1 2 [0.5; nan]%float)
    = Some (Ok colormap)
    /\ nth 1 (data colormap) (0, 0, 0)%Z = scheme_pixel "green" 127.
Proof.
  apply (nan_pixel_of_factor_image "vegetation_health" "green"
           (mk_array2 1 2 [0.5; nan]%float) 1).
  - reflexivity.
  - reflexivity.
  - simpl. lia.
  - reflexivity.
Defined.

End ColourFacts.

(** ** Transitivity of the binary64 order *)

Module TransitivityFacts.

Import Request ImageFacts OrderFacts.
Open Scope float_scope.

Lemma SFcompare_by_keys (a b : spec_float) :
  a <> S754_nan -> b <> S754_nan ->
  SFcompare a b = Some (compare_keys (order_key a) (order_key b)).
Proof.
  intros Ha Hb.
  destruct a as [sa|sa| |sa ma ea], b as [sb|sb| |sb mb eb];
    try contradiction; simpl;
    try (destruct sa; reflexivity); try (destruct sb; reflexivity);
    try (destruct sa, sb; reflexivity).
  destruct sa, sb; simpl; try reflexivity.
  rewrite Z.compare_opp, (Z.compare_antisym ea eb).
  destruct (ea ?= eb)%Z; reflexivity.
Qed.

Lemma compare_keys_lt (x y : Z * Z * Z) :
  compare_keys x y = Lt <->
  (let '(x1, x2, x3) := x in
   let '(y1, y2, y3) := y in
   x1 < y1 \/ (x1 = y1 /\ (x2 < y2 \/ (x2 = y2 /\ x3 < y3))))%Z.
Proof.
  destruct x as [[x1 x2] x3], y as [[y1 y2] y3]. unfold compare_keys.
  destruct (Z.compare_spec x1 y1); destruct (Z.compare_spec x2 y2);
    destruct (Z.compare_spec x3 y3);
    split; intros; try discriminate; try reflexivity; lia.
Qed.

Lemma compare_keys_eq (x y : Z * Z * Z) :
  compare_keys x y = Eq <-> x = y.
Proof.
  destruct x as [[x1 x2] x3], y as [[y1 y2] y3]. unfold compare_keys.
  destruct (Z.compare_spec x1 y1); destruct (Z.compare_spec x2 y2);
    destruct (Z.compare_spec x3 y3);
    split; intros H'; try discriminate; try reflexivity;
    try (injection H' as -> -> ->); try congruence; lia.
Qed.

Lemma ltb_not_nan (x y : float) :
  (x <? y) = true -> is_nan x = false /\ is_nan y = false.
Proof.
  rewrite ltb_spec. unfold SFltb. intros H. split.
  - destruct (is_nan x) eqn:E; [|reflexivity].
    rewrite (F64Facts.nan_spec x E) in H. discriminate.
  - destruct (is_nan y) eqn:E; [|reflexivity].
    rewrite (F64Facts.nan_spec y E), F64Facts.SFcompare_nan_r in H. discriminate.
Qed.

Lemma ltb_keys (x y : float) :
  (x <? y) = true ->
  compare_keys (order_key (Prim2SF x)) (order_key (Prim2SF y)) = Lt.
Proof.
  intros H. destruct (ltb_not_nan x y H) as [Hx Hy].
  rewrite ltb_spec in H. unfold SFltb in H.
  rewrite (SFcompare_by_keys _ _ (not_nan_spec x Hx) (not_nan_spec y Hy)) in H.
  destruct (compare_keys _ _); congruence.
Qed.

Lemma leb_keys (x y : float) :
  (x <=? y) = true ->
  compare_keys (order_key (Prim2SF x)) (order_key (Prim2SF y)) = Lt
  \/ order_key (Prim2SF x) = order_key (Prim2SF y).
Proof.
  intros H. destruct (leb_not_nan x y H) as [Hx Hy].
  rewrite leb_spec in H. unfold SFleb in H.
  rewrite (SFcompare_by_keys _ _ (not_nan_spec x Hx) (not_nan_spec y Hy)) in H.
  destruct (compare_keys _ _) eqn:E; try discriminate; [right|left; reflexivity].
  now apply compare_keys_eq.
Qed.

Lemma keys_ltb (x y : float) :
  is_nan x = false -> is_nan y = false ->
  compare_keys (order_key (Prim2SF x)) (order_key (Prim2SF y)) = Lt ->
  (x <? y) = true.
Proof.
  intros Hx Hy H. rewrite ltb_spec. unfold SFltb.
  now rewrite (SFcompare_by_keys _ _ (not_nan_spec x Hx) (not_nan_spec y Hy)), H.
Qed.

(** [a <= b] and [b < c] give [a < c]. *)
Lemma leb_ltb_trans (a b c : float) :
  (a <=? b) = true -> (b <? c) = true -> (a <? c) = true.
Proof.
  intros Hab Hbc.
  destruct (leb_not_nan a b Hab) as [Ha _].
  destruct (ltb_not_nan b c Hbc) as [_ Hc].
  apply (keys_ltb a c Ha Hc).
  pose proof (ltb_keys b c Hbc) as Kbc.
  destruct (leb_keys a b Hab) as [Kab|Kab].
  - apply compare_keys_lt in Kab, Kbc. apply compare_keys_lt.
    destruct (order_key (Prim2SF a)) as [[a1 a2] a3].
    destruct (order_key (Prim2SF b)) as [[b1 b2] b3].
    destruct (order_key (Prim2SF c)) as [[c1 c2] c3]. lia.
  - now rewrite Kab.
Qed.

(** [a < b] and [b <= c] give [a < c]. *)
Lemma ltb_leb_trans (a b c : float) :
  (a <? b) = true -> (b <=? c) = true -> (a <? c) = true.
Proof.
  intros Hab Hbc.
  destruct (ltb_not_nan a b Hab) as [Ha _].
  destruct (leb_not_nan b c Hbc) as [_ Hc].
  apply (keys_ltb a c Ha Hc).
  pose proof (ltb_keys a b Hab) as Kab.
  destruct (leb_keys b c Hbc) as [Kbc|Kbc].
  - apply compare_keys_lt in Kab, Kbc. apply compare_keys_lt.
    destruct (order_key (Prim2SF a)) as [[a1 a2] a3].
    destruct (order_key (Prim2SF b)) as [[b1 b2] b3].
    destruct (order_key (Prim2SF c)) as [[c1 c2] c3]. lia.
  - now rewrite <- Kbc.
Qed.

End TransitivityFacts.

(** ** The request checks *)

Module RequestFacts.

Import Request OrderFacts TransitivityFacts.
Open Scope float_scope.

(** Bounds that pass the checks of [analyze] are two coordinate pairs
    that span a proper rectangle on Earth: west strictly below east,
    south strictly below north, all four within the longitude and
    latitude ranges.  A NaN coordinate never passes. *)
Theorem accepted_bounds_are_a_rectangle
    (bounds : option (list (list float))) (min_lon min_lat max_lon max_lat : float) :
  check_bounds bounds = Proceed min_lon min_lat max_lon max_lat ->
  bounds = Some [[min_lon; min_lat]; [max_lon; max_lat]]
  /\ (min_lon <? max_lon) = true
  /\ (min_lat <? max_lat) = true
  /\ (-180 <=? min_lon) = true /\ (max_lon <=? 180) = true
  /\ (-90 <=? min_lat) = true /\ (max_lat <=? 90) = true
  /\ forallb (fun x => negb (F64.isnan x)) [min_lon; min_lat; max_lon; max_lat] = true.
Proof.
  unfold check_bounds. intros H.
  destruct bounds as [b|]; [|discriminate].
  repeat match type of H with
         | context [match ?l with nil => _ | cons _ _ => _ end] =>
             is_var l; destruct l
         end; try discriminate.
  destruct (negb _) eqn:Hrange; [discriminate|].
  destruct (_ || _) eqn:Horder; [discriminate|].
  injection H as <- <- <- <-.
  apply negb_false_iff in Hrange. rewrite !andb_true_iff in Hrange.
  destruct Hrange as [[[[A1 A2] [B1 B2]] [C1 C2]] [D1 D2]].
  apply orb_false_iff in Horder. destruct Horder as [Hlon Hlat].
  destruct (leb_not_nan _ _ A1) as [_ Na].
  destruct (leb_not_nan _ _ B1) as [_ Nb].
  destruct (leb_not_nan _ _ C1) as [_ Nc].
  destruct (leb_not_nan _ _ D1) as [_ Nd].
  split; [reflexivity|].
  split; [now apply ltb_of_not_leb|].
  split; [now apply ltb_of_not_leb|].
  repeat (split; [assumption|]).
  unfold F64.isnan. simpl. now rewrite Na, Nb, Nc, Nd.
Qed.

Lemma accepted_bounds_are_a_rectangle_witness :
  Some [[12.4; 41.8]; [12.6; 41.9]] = Some [[12.4; 41.8]; [12.6; 41.9]]
  /\ (12.4 <? 12.6) = true
  /\ (41.8 <? 41.9) = true
  /\ (-180 <=? 12.4) = true /\ (12.6 <=? 180) = true
  /\ (-90 <=? 41.8) = true /\ (41.9 <=? 90) = true
  /\ forallb (fun x => negb (F64.isnan x)) [12.4; 41.8; 12.6; 41.9] = true.
Proof.
  apply (accepted_bounds_are_a_rectangle (Some [[12.4; 41.8]; [12.6; 41.9]])).
  reflexivity.
Defined.

(** A larger area never gets a finer resolution: when an area is within
    the size limit, every smaller area is too, and its resolution in
    metres is at most that of the larger one. *)
Theorem resolution_grows_with_area (small large : float) (metres : Z) :
  (small <=? large) = true ->
  choose_resolution large = Resolution metres ->
  exists metres',
    choose_resolution small = Resolution metres' /\ (metres' <= metres)%Z.
Proof.
  intros Hle. unfold choose_resolution, F64.gt.
  assert (Hup : forall t, (t <? small) = true -> (t <? large) = true).
  { intros t Ht. exact (ltb_leb_trans t small large Ht Hle). }
  assert (Hdown : forall t, (large <? t) = true -> (small <? t) = true).
  { intros t Ht. exact (leb_ltb_trans small large t Hle Ht). }
  destruct (10000 <? large) eqn:L0; [discriminate|].
  destruct (10000 <? small) eqn:S0; [now rewrite (Hup _ S0) in L0|].
  destruct (large <? 100) eqn:L1.
  { rewrite (Hdown _ L1). intros H. injection H as <-. eexists. split; [reflexivity|lia]. }
  destruct (large <? 1000) eqn:L2.
  { rewrite (Hdown _ L2). intros H. injection H as <-.
    destruct (small <? 100); eexists; (split; [reflexivity|lia]). }
  destruct (large <? 5000) eqn:L3.
  { rewrite (Hdown _ L3). intros H. injection H as <-.
    destruct (small <? 100); [|destruct (small <? 1000)];
      eexists; (split; [reflexivity|lia]). }
  intros H. injection H as <-.
  destruct (small <? 100); [|destruct (small <? 1000); [|destruct (small <? 5000)]];
    eexists; (split; [reflexivity|lia]).
Qed.

Lemma resolution_grows_with_area_witness :
  exists metres',
    choose_resolution 250 = Resolution metres' /\ (metres' <= 60)%Z.
Proof.
  apply (resolution_grows_with_area 250 4000 60); reflexivity.
Defined.

End RequestFacts.

(** ** The converters and the level text follow the order of their argument *)

Module MonotoneFacts.

Import Risk Report OrderFacts TransitivityFacts.
Open Scope float_scope.

Lemma gt_upward (x y c : float) :
  (x <=? y) = true -> F64.gt x c = true -> F64.gt y c = true.
Proof. unfold F64.gt. intros Hxy Hc. exact (ltb_leb_trans c x y Hc Hxy). Qed.

(** A pixel with a higher index value never gets a higher risk tier from
    the vegetation, water, burn and drainage converters, and never a lower
    one from the urban converter. *)
Theorem converters_follow_the_index (x y : float) :
  (x <=? y) = true ->
  (vegetation_rule y <= vegetation_rule x)%Z
  /\ (water_rule y <= water_rule x)%Z
  /\ (burn_rule y <= burn_rule x)%Z
  /\ (drainage_rule y <= drainage_rule x)%Z
  /\ (urban_rule x <= urban_rule y)%Z.
Proof.
  intros Hxy.
  pose proof (fun c => gt_upward x y c Hxy) as Hup.
  unfold vegetation_rule, water_rule, burn_rule, drainage_rule, urban_rule.
  repeat split;
    repeat match goal with
           | |- context [F64.gt x ?c] =>
               let E := fresh "E" in
               destruct (F64.gt x c) eqn:E; [rewrite (Hup c E)|]
           | |- context [F64.gt y ?c] => destruct (F64.gt y c)
           end; lia.
Qed.

Lemma converters_follow_the_index_witness :
  (vegetation_rule 0.7 <= vegetation_rule 0.25)%Z
  /\ (water_rule 0.7 <= water_rule 0.25)%Z
  /\ (burn_rule 0.7 <= burn_rule 0.25)%Z
  /\ (drainage_rule 0.7 <= drainage_rule 0.25)%Z
  /\ (urban_rule 0.25 <= urban_rule 0.7)%Z.
Proof.
  apply (converters_follow_the_index 0.25 0.7). reflexivity.
Defined.

(** A higher score never gets a milder level text. *)
Theorem level_text_follows_the_score (low high : float) :
  (low <=? high) = true ->
  (level_index (get_risk_level_text low)
   <= level_index (get_risk_level_text high))%nat.
Proof.
  intros Hle.
  assert (Hdown : forall t, (high <? t) = true -> (low <? t) = true).
  { intros t Ht. exact (leb_ltb_trans low high t Hle Ht). }
  unfold get_risk_level_text.
  destruct (high <? 3) eqn:H3; [rewrite (Hdown _ H3); vm_compute; lia|].
  destruct (high <? 6) eqn:H6.
  { rewrite (Hdown _ H6). destruct (low <? 3); vm_compute; lia. }
  destruct (high <? 8) eqn:H8.
  { rewrite (Hdown _ H8). destruct (low <? 3); [|destruct (low <? 6)]; vm_compute; lia. }
  destruct (low <? 3); [|destruct (low <? 6); [|destruct (low <? 8)]]; vm_compute; lia.
Qed.

Lemma level_text_follows_the_score_witness :
  (level_index (get_risk_level_text 2.5) <= level_index (get_risk_level_text 7))%nat.
Proof.
  apply (level_text_follows_the_score 2.5 7). reflexivity.
Defined.

End MonotoneFacts.

(** ** The report helpers *)

Module ReportFacts.

Import Report ContainerFacts.
Open Scope float_scope.
Open Scope list_scope.

Lemma append_if_high_grows (risk_values : list (string * float)) (key text : string)
    (recommendations : list string) :
  exists extra,
    append_if_high risk_values key text recommendations = recommendations ++ extra
    /\ (List.length extra <= 1)%nat.
Proof.
  unfold append_if_high. destruct (F64.gt _ _).
  - exists [text]. split; [reflexivity | simpl; lia].
  - exists []. split; [now rewrite app_nil_r | simpl; lia].
Qed.

(** [generate_recommendations] always returns between three and nine
    texts: one or two on the overall risk first, at most one for each of
    five factors, and the two general ones last. *)
Theorem recommendations_shape
    (total_risk : float) (risk_values : list (string * float)) (index_values : pyobj) :
  exists overall specific,
    generate_recommendations total_risk risk_values index_values
    = overall ++ specific ++ general_recommendations
    /\ (1 <= List.length overall <= 2)%nat
    /\ (List.length specific <= 5)%nat
    /\ (3 <= List.length
               (generate_recommendations total_risk risk_values index_values)
        <= 9)%nat.
Proof.
  unfold generate_recommendations.
  set (overall := if F64.gt total_risk 7 then _ else _).
  assert (Ho : (1 <= List.length overall <= 2)%nat).
  { unfold overall. destruct (F64.gt total_risk 7); [simpl; lia|].
    destruct (F64.gt total_risk 5); simpl; lia. }
  assert (Hs : exists specific,
             match risk_values with
             | [] => overall
             | _ :: _ =>
                 append_if_high risk_values "drainage_risk"
                   "Drainage issues detected - assess flood risk and drainage infrastructure."
                   (append_if_high risk_values "roof_risk"
                      "Roof vulnerability identified - consider structural assessments and improvements."
                      (append_if_high risk_values "burn_areas"
                         "Fire risk detected - review fire safety protocols and insurance coverage."
                         (append_if_high risk_values "water_stress"
                            "High water stress identified - monitor drought conditions and water supply."
                            (append_if_high risk_values "vegetation_health"
                               "Poor vegetation health detected - consider fire prevention measures."
                               overall))))
             end = overall ++ specific
             /\ (List.length specific <= 5)%nat).
  { destruct risk_values as [|p rest].
    - exists []. split; [now rewrite app_nil_r | simpl; lia].
    - set (rv := p :: rest).
      destruct (append_if_high_grows rv "vegetation_health"
                  "Poor vegetation health detected - consider fire prevention measures."
                  overall) as [e1 [-> L1]].
      destruct (append_if_high_grows rv "water_stress"
                  "High water stress identified - monitor drought conditions and water supply."
                  (overall ++ e1)) as [e2 [-> L2]].
      destruct (append_if_high_grows rv "burn_areas"
                  "Fire risk detected - review fire safety protocols and insurance coverage."
                  ((overall ++ e1) ++ e2)) as [e3 [-> L3]].
      destruct (append_if_high_grows rv "roof_risk"
                  "Roof vulnerability identified - consider structural assessments and improvements."
                  (((overall ++ e1) ++ e2) ++ e3)) as [e4 [-> L4]].
      destruct (append_if_high_grows rv "drainage_risk"
                  "Drainage issues detected - assess flood risk and drainage infrastructure."
                  ((((overall ++ e1) ++ e2) ++ e3) ++ e4)) as [e5 [-> L5]].
      exists (e1 ++ e2 ++ e3 ++ e4 ++ e5). split.
      + now rewrite <- !app_assoc.
      + rewrite !length_app. lia. }
  destruct Hs as [specific [Hs Ls]].
  exists overall, specific. cbv zeta. rewrite Hs. split.
  - now rewrite <- app_assoc.
  - split; [exact Ho|]. split; [exact Ls|].
    rewrite !length_app. simpl. lia.
Qed.

Lemma dict_get_set_other {V : Type} (d : list (string * V)) (k k' : string) (v : V) :
  k <> k' -> dict_get (dict_set d k v) k' = dict_get d k'.
Proof.
  intros Hne. induction d as [|[k0 w] d IH]; simpl.
  - destruct (String.eqb_spec k k'); [contradiction|reflexivity].
  - destruct (String.eqb_spec k0 k) as [->|E]; simpl.
    + destruct (String.eqb_spec k k'); [contradiction|reflexivity].
    + destruct (String.eqb k0 k'); [reflexivity|exact IH].
Qed.

Lemma append_if_high_other (risk_values : list (string * float)) (v : float)
    (key text : string) (recommendations : list string) :
  "urban_areas" <> key ->
  append_if_high (dict_set risk_values "urban_areas" v) key text recommendations
  = append_if_high risk_values key text recommendations.
Proof.
  intros Hne. unfold append_if_high, get_or_zero.
  now rewrite (dict_get_set_other risk_values "urban_areas" key v Hne).
Qed.

Lemma append_if_high_empty (key text : string) (recommendations : list string) :
  append_if_high [] key text recommendations = recommendations.
Proof. reflexivity. Qed.

(** The recommendations never depend on the urban score, nor on the index
    values: setting ["urban_areas"] to any value in the risk values, and
    passing any other index values, gives the same texts. *)
Theorem recommendations_ignore_urban_score
    (total_risk v : float) (risk_values : list (string * float))
    (index_values index_values' : pyobj) :
  generate_recommendations total_risk
    (dict_set risk_values "urban_areas" v) index_values'
  = generate_recommendations total_risk risk_values index_values.
Proof.
  unfold generate_recommendations. f_equal.
  destruct (dict_set_cons risk_values "urban_areas" v) as [p [rest E]].
  rewrite E, <- E.
  rewrite !append_if_high_other by discriminate.
  destruct risk_values as [|q rest']; [|reflexivity].
  now rewrite !append_if_high_empty.
Qed.

(** *** The trend summary *)

Lemma and_then_returns {A B : Type} (m : outcome A) (k : A -> outcome B) (b : B) :
  and_then m k = Returns b -> exists a, m = Returns a /\ k a = Returns b.
Proof. destruct m as [a|e]; simpl; intros H; [now exists a | discriminate]. Qed.

Lemma for_each_head {A B : Type} (h : A -> outcome B) (l : list A) (ys : list B) (d : A) :
  l <> [] -> for_each h l = Returns ys ->
  exists y rest, ys = y :: rest /\ h (hd d l) = Returns y.
Proof.
  destruct l as [|x l]; [contradiction|]. intros _ H. simpl in H.
  apply and_then_returns in H. destruct H as [y [Hy H]].
  apply and_then_returns in H. destruct H as [rest [_ H]].
  injection H as <-. now exists y, rest.
Qed.

Lemma for_each_last {A B : Type} (h : A -> outcome B) (l : list A) :
  forall (ys : list B) (d : A) (e : B),
    l <> [] -> for_each h l = Returns ys ->
    ys <> [] /\ h (last l d) = Returns (last ys e).
Proof.
  induction l as [|x l IH]; intros ys d e Hne H; [contradiction|].
  simpl in H.
  apply and_then_returns in H. destruct H as [y [Hy H]].
  apply and_then_returns in H. destruct H as [rest [Hrest H]].
  injection H as <-. split; [discriminate|].
  destruct l as [|x' l'].
  - simpl in Hrest. injection Hrest as <-. exact Hy.
  - destruct (IH rest d e ltac:(discriminate) Hrest) as [Hr Hl].
    destruct rest as [|r rest']; [contradiction|]. exact Hl.
Qed.

Lemma for_each_length {A B : Type} (h : A -> outcome B) (l : list A) :
  forall ys, for_each h l = Returns ys -> List.length ys = List.length l.
Proof.
  induction l as [|x l IH]; intros ys H; simpl in H.
  - now injection H as <-.
  - apply and_then_returns in H. destruct H as [y [_ H]].
    apply and_then_returns in H. destruct H as [rest [Hrest H]].
    injection H as <-. simpl. now rewrite (IH rest Hrest).
Qed.

Section Formatting.

Variable format_1f : float -> string.

(** What the summary does up to the trend sentence, when every period has
    a numeric composite risk. *)
Lemma trend_summary_of_risks
    (trend_data : list (list (string * pyobj))) (risks : list float) :
  (2 <= List.length trend_data)%nat ->
  period_risks trend_data = Returns risks ->
  get_trend_summary format_1f trend_data
  = and_then (trend_sentence format_1f (hd 0 risks) (last risks 0))
      (fun trend_text =>
         Returns (trend_text
                  ++ " The analysis period shows an average risk of "
                  ++ format_1f (F64.sum risks / F64.of_nat (List.length risks))
                  ++ ", with values ranging from " ++ format_1f (py_min risks)
                  ++ " to " ++ format_1f (py_max risks) ++ "."))%string.
Proof.
  intros Hlen Hrisks. unfold get_trend_summary.
  destruct (Nat.ltb_spec (List.length trend_data) 2) as [Hlt|_]; [lia|].
  unfold period_risks in Hrisks.
  apply and_then_returns in Hrisks. destruct Hrisks as [objs [Hobjs Hnum]].
  assert (Hne : trend_data <> []) by (intros ->; simpl in Hlen; lia).
  assert (Hone : objs <> []).
  { intros ->. apply for_each_length in Hobjs. simpl in Hobjs.
    destruct trend_data; [contradiction | discriminate]. }
  destruct (for_each_head _ _ _ [] Hne Hobjs) as [o [orest [Eo Ho]]].
  destruct (for_each_last _ _ _ [] PyNone Hne Hobjs) as [_ Hl].
  destruct (for_each_head _ _ _ PyNone Hone Hnum) as [r [rrest [Er Hr]]].
  destruct (for_each_last _ _ _ PyNone 0 Hone Hnum) as [_ Hlr].
  rewrite Ho. simpl and_then. rewrite Hl. simpl and_then.
  rewrite Eo in Hr. simpl hd in Hr. rewrite Hr. simpl and_then.
  rewrite Hlr. simpl and_then.
  rewrite Er. simpl hd. rewrite <- Er.
  destruct (trend_sentence format_1f r (last risks 0)) as [text|e]; [|reflexivity].
  simpl and_then. rewrite Hobjs. simpl and_then. rewrite Hnum. reflexivity.
Qed.



End Formatting.



End ReportFacts.

(** ** Where the sanitizer and the converters do what is expected *)

Module RegularFacts.

Import Sanitizer SanitizerFacts Risk Run Samples.
Import ContainerFacts F64Facts ConverterFacts PipelineFacts.
Open Scope float_scope.

(** On a structure whose ndarrays hold no NaN and no infinity (and whose
    numpy integers convert to finite floats), the result of
    [sanitize_for_json] is free of NaN and infinities. *)
Theorem sanitize_cleans_regular_structures (o : pyobj) :
  regular o = true -> json_safe (sanitize_for_json o) = true.
Proof. apply sanitize_safe_on_regular. Qed.

Lemma sanitize_cleans_regular_structures_witness :
  json_safe (sanitize_for_json mixed_values) = true.
Proof.
  apply (sanitize_cleans_regular_structures mixed_values). reflexivity.
Defined.

(** On the same structures a second pass of [sanitize_for_json] changes
    nothing. *)
Theorem sanitize_twice_is_once_on_regular_structures (o : pyobj) :
  regular o = true ->
  sanitize_for_json (sanitize_for_json o) = sanitize_for_json o.
Proof. apply sanitize_idempotent_on_regular. Qed.

Lemma sanitize_twice_is_once_on_regular_structures_witness :
  sanitize_for_json (sanitize_for_json mixed_values) = sanitize_for_json mixed_values.
Proof.
  apply (sanitize_twice_is_once_on_regular_structures mixed_values). reflexivity.
Defined.

(** When the present factors all bring grids of one shape with at least
    one pixel, [process_risk_data] returns a result and raises nothing,
    whatever values the grids hold. *)
Theorem same_shape_run_returns
    (zoom : grid -> float * float -> grid) (s : nat * nat)
    (veg water urban burn roof drainage : raw_data) :
  (fst s * snd s <> 0)%nat ->
  forallb (fun p => input_shaped s (snd p))
          (all_steps veg water urban burn roof drainage) = true ->
  exists r, process_risk_data zoom veg water urban burn roof drainage = Ok r.
Proof. apply same_shape_inputs_return. Qed.

Lemma same_shape_run_returns_witness :
  exists r,
    process_risk_data nearest_zoom ndvi_1x2 ndmi_1x2 None None
      roof_with_infinity None = Ok r.
Proof.
  apply (same_shape_run_returns nearest_zoom (1, 2)%nat).
  - simpl. lia.
  - reflexivity.
Defined.

(** Each of the five threshold converters yields an integer layer of the
    grid's shape whose every value is one of the converter's three tiers,
    whatever the grid holds. *)
Theorem threshold_layer_holds_tiers_only (f : factor) (g : grid) :
  is_threshold f = true ->
  exists a,
    risk_of f g = Ok (IntLayer a)
    /\ shape a = shape g
    /\ Forall (fun z => In z (tiers f)) (data a).
Proof.
  intros Hf. exists (map2d (threshold_rule f) g).
  split; [now apply risk_of_threshold|]. split; [reflexivity|].
  simpl. apply Forall_forall. intros z Hz. apply in_map_iff in Hz.
  destruct Hz as [x [<- _]]. now apply threshold_rule_in_tiers.
Qed.

Lemma threshold_layer_holds_tiers_only_witness :
  exists a,
    risk_of burn_areas (mk_array2 1 3 [nan; infinity; 0.2]) = Ok (IntLayer a)
    /\ shape a = (1, 3)%nat
    /\ Forall (fun z => In z [2; 5; 8]%Z) (data a).
Proof.
  apply (threshold_layer_holds_tiers_only burn_areas
           (mk_array2 1 3 [nan; infinity; 0.2])).
  reflexivity.
Defined.

(** *** One NaN pixel in the roof grid *)

Lemma fold_maximum_meets_nan (l : list float) :
  forall x, is_nan x = true \/ existsb F64.isnan l = true ->
    is_nan (fold_left F64.maximum l x) = true.
Proof.
  induction l as [|y l IH]; intros x H; simpl.
  - destruct H as [H|H]; [exact H | discriminate].
  - apply IH. unfold F64.maximum.
    destruct (is_nan x) eqn:Hx; [now left|].
    destruct (is_nan y) eqn:Hy; [now left|].
    destruct H as [H|H]; [discriminate|].
    simpl in H. unfold F64.isnan in H at 1. rewrite Hy in H. simpl in H.
    now right.
Qed.

(** A single NaN anywhere in the roof grid makes [np.max] NaN, the test
    "maximum above minimum" fail, and the whole roof layer the constant
    5.0: the values of all other pixels are lost. *)
Theorem one_nan_flattens_the_roof_layer (roof_value : grid) :
  existsb F64.isnan (data roof_value) = true ->
  roof_rule roof_value = Ok (full_like roof_value 5).
Proof.
  intros H. unfold roof_rule, Np.max, Np.min.
  destruct (data roof_value) as [|x rest] eqn:E; [discriminate|].
  rewrite !bind_unit. unfold F64.gt.
  rewrite ltb_nan_r; [reflexivity|].
  apply fold_maximum_meets_nan. simpl in H. unfold F64.isnan in H at 1.
  destruct (is_nan x); [now left | now right].
Qed.

Lemma one_nan_flattens_the_roof_layer_witness :
  roof_rule roof_with_nan = Ok (full_like roof_with_nan 5).
Proof.
  apply (one_nan_flattens_the_roof_layer roof_with_nan). reflexivity.
Defined.

End RegularFacts.

(** ** More on the roof converter and on sanitized arrays *)

Module RoofFacts.

Import Sanitizer SanitizerFacts Risk Run Request.
Import ContainerFacts F64Facts ConverterFacts OrderFacts TransitivityFacts.
Open Scope float_scope.

(** No value is below itself. *)
Lemma ltb_irreflexive (x : float) : (x <? x) = false.
Proof.
  destruct (x <? x) eqn:E; [|reflexivity].
  pose proof (ltb_keys x x E) as K. apply compare_keys_lt in K.
  destruct (order_key (Prim2SF x)) as [[a b] c]. lia.
Qed.

Lemma maximum_same (x : float) : F64.maximum x x = x.
Proof. unfold F64.maximum. now destruct (is_nan x), (x <? x). Qed.

Lemma minimum_same (x : float) : F64.minimum x x = x.
Proof. unfold F64.minimum. now destruct (is_nan x), (x <? x). Qed.

Lemma fold_maximum_constant (x : float) (n : nat) :
  fold_left F64.maximum (repeat x n) x = x.
Proof. induction n as [|n IH]; simpl; [reflexivity|]. now rewrite maximum_same. Qed.

Lemma fold_minimum_constant (x : float) (n : nat) :
  fold_left F64.minimum (repeat x n) x = x.
Proof. induction n as [|n IH]; simpl; [reflexivity|]. now rewrite minimum_same. Qed.

(** A roof grid whose pixels all hold the same value, whatever it is, gets
    the constant layer 5.0: the maximum does not exceed the minimum. *)
Theorem constant_roof_grid_gets_five (h w n : nat) (x : float) :
  roof_rule (mk_array2 h w (repeat x (S n)))
  = Ok (full_like (mk_array2 h w (repeat x (S n))) 5).
Proof.
  unfold roof_rule, Np.max, Np.min. cbn [data repeat Py.bind].
  rewrite fold_maximum_constant, fold_minimum_constant.
  unfold F64.gt. now rewrite ltb_irreflexive.
Qed.

(** What the ndarray branch of the sanitizer returns is free of NaN and
    infinities exactly when the array is: the branch converts and cleans
    nothing. *)
Theorem sanitized_array_is_as_safe_as_the_array (a : ndarray) :
  json_safe (sanitize_for_json (PyNdarray a)) = finite_array a.
Proof.
  simpl. pattern a. revert a.
  apply ndarray_induction; [intros [z|f]; reflexivity|].
  intros l IH. simpl. induction IH as [|x l Hx _ IHl]; simpl; [reflexivity|].
  now rewrite Hx, IHl.
Qed.

End RoofFacts.

(** ** The composite when only threshold converters run *)

Module TierFacts.

Import Risk Run Observe Tiered.
Import ContainerFacts F64Facts ConverterFacts CompositeFacts PipelineFacts.
Open Scope float_scope.

Lemma same_float_eq (x y : float) : same_float x y = true -> x = y.
Proof.
  unfold same_float. intros H. apply Prim2SF_inj.
  destruct (Prim2SF x) as [a|a| |a m e], (Prim2SF y) as [b|b| |b n k];
    try discriminate; try reflexivity.
  - apply Bool.eqb_prop in H. now subst.
  - apply Bool.eqb_prop in H. now subst.
  - apply andb_true_iff in H. destruct H as [H He].
    apply andb_true_iff in H. destruct H as [Hs Hm].
    apply Bool.eqb_prop in Hs. apply Pos.eqb_eq in Hm. apply Z.eqb_eq in He.
    now subst.
Qed.

Lemma tier_value_spec (z : Z) : tier_value z = true <-> (2 <= z <= 9)%Z.
Proof. unfold tier_value. rewrite andb_true_iff, !Z.leb_le. tauto. Qed.

Lemma add_tier_exact (a b : Z) :
  (0 <= a <= 45)%Z -> tier_value b = true ->
  F64.of_Z a + F64.of_Z b = F64.of_Z (a + b).
Proof.
  intros Ha Hb. apply tier_value_spec in Hb.
  assert (Hall : sums_exact = true) by (vm_compute; reflexivity).
  unfold sums_exact in Hall. rewrite forallb_forall in Hall.
  specialize (Hall (Z.to_nat a)). rewrite forallb_forall in Hall.
  - specialize (Hall ltac:(apply in_seq; lia) (Z.to_nat b) ltac:(apply in_seq; lia)).
    rewrite !Z2Nat.id in Hall by lia. now apply same_float_eq.
Qed.

Lemma tier_sum_bounds (zs : list Z) :
  forallb tier_value zs = true ->
  (2 * Z.of_nat (List.length zs) <= tier_sum zs <= 9 * Z.of_nat (List.length zs))%Z.
Proof.
  induction zs as [|z zs IH]; intros H; [simpl; lia|].
  simpl in H. apply andb_true_iff in H. destruct H as [Hz H].
  apply tier_value_spec in Hz. specialize (IH H).
  change (tier_sum (z :: zs)) with (z + tier_sum zs)%Z.
  change (List.length (z :: zs)) with (S (List.length zs)). lia.
Qed.

(** The float sum of up to six tiers is their integer sum. *)
Lemma fold_add_tiers (zs : list Z) :
  forall acc : Z,
    forallb tier_value zs = true ->
    (0 <= acc)%Z ->
    (acc + 9 * Z.of_nat (List.length zs) <= 54)%Z ->
    fold_left add (map F64.of_Z zs) (F64.of_Z acc) = F64.of_Z (acc + tier_sum zs).
Proof.
  induction zs as [|z zs IH]; intros acc H Hacc Hlen.
  - simpl. now rewrite Z.add_0_r.
  - simpl in H. apply andb_true_iff in H. destruct H as [Hz H].
    change (List.length (z :: zs)) with (S (List.length zs)) in Hlen.
    simpl map. simpl fold_left. rewrite add_tier_exact by (auto; lia).
    pose proof (proj1 (tier_value_spec z) Hz) as Hzb.
    rewrite IH by (auto; lia).
    change (tier_sum (z :: zs)) with (z + tier_sum zs)%Z. f_equal. lia.
Qed.

Lemma clamped_mean_in_tier_range (total : Z) (n : nat) :
  (1 <= n <= 6)%nat ->
  (2 * Z.of_nat n <= total <= 9 * Z.of_nat n)%Z ->
  in_tier_range (clamped_mean total n) = true.
Proof.
  intros Hn Ht.
  assert (Hall : means_in_tier_range = true) by (vm_compute; reflexivity).
  unfold means_in_tier_range in Hall. rewrite forallb_forall in Hall.
  specialize (Hall n ltac:(apply in_seq; lia)). rewrite forallb_forall in Hall.
  specialize (Hall (Z.to_nat total) ltac:(apply in_seq; lia)).
  rewrite Z2Nat.id in Hall by lia.
  assert (Hc : ((2 * n <=? Z.to_nat total) && (Z.to_nat total <=? 9 * n))%nat = true).
  { apply andb_true_iff. split; apply Nat.leb_le; lia. }
  now rewrite Hc in Hall.
Qed.

(** The values of tiered layers at one pixel. *)
Lemma pixel_values_tiered (s : nat * nat) (k : nat) (layers : list (string * layer)) :
  (k < fst s * snd s)%nat ->
  layers_shaped s layers ->
  Forall (fun p => tiered_layer (snd p) = true) layers ->
  exists zs,
    pixel_values k layers = map F64.of_Z zs
    /\ forallb tier_value zs = true
    /\ List.length zs = List.length layers.
Proof.
  intros Hk Hs Ht. induction layers as [|[name l] layers IH].
  - exists []. now repeat split.
  - destruct (Forall_inv Hs) as [Hshape Hwf].
    pose proof (Forall_inv_tail Hs) as Hrest.
    pose proof (Forall_inv Ht) as Hl.
    pose proof (Forall_inv_tail Ht) as Htrest.
    destruct (IH Hrest Htrest) as [zs [Hv [Hz Hlen]]].
    simpl in Hshape, Hwf, Hl. destruct l as [a|a]; [|discriminate].
    assert (Hka : (k < List.length (data a))%nat).
    { unfold well_formed, size in Hwf. simpl in Hwf. rewrite length_map in Hwf.
      unfold layer_shape, shape in Hshape. simpl in Hshape.
      rewrite Hwf. destruct s. simpl in Hk. injection Hshape as -> ->. exact Hk. }
    exists (nth k (data a) 0%Z :: zs). split; [|split].
    + unfold pixel_values in *. simpl. rewrite Hv. f_equal.
      now apply nth_map_in.
    + simpl. rewrite Hz, andb_true_r.
      simpl in Hl. rewrite forallb_forall in Hl. apply Hl. now apply nth_In.
    + simpl. now rewrite Hlen.
Qed.

Lemma tiers_are_tier_values (f : factor) (z : Z) :
  is_threshold f = true -> In z (tiers f) -> tier_value z = true.
Proof.
  destruct f; try discriminate; intros _ H; simpl in H;
    repeat (destruct H as [<-|H]; [reflexivity|]); contradiction.
Qed.

Lemma dict_set_length {V : Type} (d : list (string * V)) (k : string) (v : V) :
  (List.length (dict_set d k v) <= S (List.length d))%nat.
Proof.
  induction d as [|[k' w] d IH]; simpl; [lia|].
  destruct (String.eqb k' k); simpl; lia.
Qed.

Section WithZoom.

Variable zoom : grid -> float * float -> grid.

Lemma process_factor_tiered (f : factor) (d : raw_data) (st st' : state) :
  process_factor zoom f d st = Ok st' ->
  threshold_step (f, d) = true ->
  tiered st ->
  tiered st'
  /\ (List.length (risk_layers st') <= S (List.length (risk_layers st)))%nat.
Proof.
  intros H Hf Ht. destruct d as [raw|].
  - simpl in Hf. apply process_factor_inv in H.
    destruct H as [g [g' [l [ref' [_ [_ [Hl [_ [-> _]]]]]]]]].
    rewrite (risk_of_threshold f g' Hf) in Hl. injection Hl as <-.
    split; [|apply dict_set_length].
    apply dict_set_Forall; [exact Ht|]. intros k'. simpl.
    apply forallb_forall. intros z Hz. apply in_map_iff in Hz.
    destruct Hz as [x [<- _]].
    apply (tiers_are_tier_values f); [exact Hf|].
    now apply threshold_rule_in_tiers.
  - simpl in H. injection H as <-. split; [exact Ht | lia].
Qed.

Lemma run_steps_tiered (steps : list (factor * raw_data)) :
  forall st st',
    run_steps zoom steps st = Ok st' ->
    forallb threshold_step steps = true ->
    tiered st ->
    tiered st'
    /\ (List.length (risk_layers st')
        <= List.length (risk_layers st) + List.length steps)%nat.
Proof.
  induction steps as [|[f d] steps IH]; intros st st' H Hall Ht.
  - simpl in H. injection H as <-. split; [exact Ht | lia].
  - simpl in H. invert_binds. simpl in Hall.
    apply andb_true_iff in Hall. destruct Hall as [Hf Hall].
    destruct (process_factor_tiered f d st a Ha Hf Ht) as [Ht1 Hlen1].
    destruct (IH a st' H Hall Ht1) as [Ht2 Hlen2].
    split; [exact Ht2|]. simpl. lia.
Qed.

(** Without a roof input and with all present grids of one shape, every
    pixel of the returned composite lies between 2 and 9, the lowest and
    the highest tier of the threshold converters: it is never NaN and the
    clamp to [1, 10] never acts, whatever values the grids hold. *)
Theorem composite_of_thresholds_between_2_and_9
    (s : nat * nat) (veg water urban burn drainage : raw_data) (r : returned) :
  (fst s * snd s <> 0)%nat ->
  forallb (fun p => input_shaped s (snd p))
          (all_steps veg water urban burn None drainage) = true ->
  process_risk_data zoom veg water urban burn None drainage = Ok r ->
  forallb in_tier_range (data (composite_of r)) = true.
Proof.
  intros Hs Hall Hrun.
  destruct (run_steps_keeps_unresampled zoom s _ Hs Hall initial)
    as [st [Hphase [Hlayers [_ Hset]]]].
  { split; [constructor|]. split; [now left|]. intros H. now contradiction H. }
  destruct (run_steps_tiered _ initial st Hphase) as [Ht Hlen].
  { destruct veg, water, urban, burn, drainage; reflexivity. }
  { constructor. }
  simpl in Hlen.
  unfold process_risk_data, factor_phase in Hrun.
  rewrite Hphase, bind_unit in Hrun. unfold composite_phase in Hrun.
  unfold tiered in Ht.
  destruct (risk_layers st) as [|p rest] eqn:E.
  - injection Hrun as <-. cbv beta iota delta [composite_of full data].
    apply forallb_forall. intros x Hx. apply repeat_spec in Hx. now subst x.
  - rewrite (Hset ltac:(discriminate)) in Hrun. destruct s as [h w]. simpl in Hs.
    destruct (accumulate_same_shape (p :: rest) (zeros (h, w)) 0)
      as [total [Hacc [Hsh [Hwft Hpix]]]].
    + exact Hs.
    + unfold well_formed, zeros, full, size. simpl. apply repeat_length.
    + exact Hlayers.
    + rewrite Hacc, bind_unit in Hrun. cbv beta iota zeta in Hrun.
      simpl fst in Hrun. simpl snd in Hrun.
      change (Nat.ltb 0 (0 + List.length (p :: rest))) with true in Hrun.
      cbv iota in Hrun. invert_binds. injection Hrun as <-.
      cbv beta iota delta [composite_of]. simpl data.
      apply forallb_forall. intros x Hx.
      apply in_map_iff in Hx. destruct Hx as [y [<- Hy]].
      apply in_map_iff in Hy. destruct Hy as [t [<- Hin]].
      destruct (In_nth _ _ nan Hin) as [k [Hk Hnth]].
      assert (Hsize : List.length (data total) = (h * w)%nat).
      { unfold well_formed in Hwft. rewrite Hwft. unfold size.
        unfold shape in Hsh. simpl in Hsh. injection Hsh as -> ->. reflexivity. }
      rewrite Hsize in Hk.
      rewrite <- Hnth, (Hpix k) by (unfold size; simpl; exact Hk).
      unfold zeros, full. simpl data. rewrite nth_repeat_lt by exact Hk.
      destruct (pixel_values_tiered (h, w) k (p :: rest) Hk Hlayers Ht)
        as [zs [Hv [Hz Hzlen]]].
      rewrite Hv. change 0 with (F64.of_Z 0).
      rewrite fold_add_tiers; [|exact Hz|lia|rewrite Hzlen; simpl in *; lia].
      rewrite Z.add_0_l.
      apply (clamped_mean_in_tier_range (tier_sum zs) (List.length (p :: rest))).
      * simpl in *. lia.
      * rewrite <- Hzlen. now apply tier_sum_bounds.
Qed.

End WithZoom.

Lemma composite_of_thresholds_between_2_and_9_witness :
  exists r,
    process_risk_data nearest_zoom ndvi_1x2 ndmi_1x2 None None None None = Ok r
    /\ forallb in_tier_range (data (composite_of r)) = true.
Proof.
  eexists. split; [reflexivity|].
  apply (composite_of_thresholds_between_2_and_9 nearest_zoom (1, 2)%nat
           ndvi_1x2 ndmi_1x2 None None None).
  - simpl. lia.
  - reflexivity.
  - reflexivity.
Defined.

End TierFacts.
